(** * Flight SQL server core (go/arrow/flight/flightsql/server.go)

    A shallow embedding of the capability registry of [BaseServer], of its
    default handler methods, and of the RPC verb router [flightSqlServer]
    ([GetFlightInfo], [DoGet], [DoPut]), followed by the properties of the
    dispatch, of the streaming loop and of the SqlInfo record construction.

    Conventions of the embedding:
    - a Go [error] value is [option Error], [None] being [nil];
    - a pointer or channel result that may be [nil] is an [option];
    - a method with a pointer receiver threads the receiver explicitly;
    - a call that may panic or never return yields a [GoResult];
    - [uint32] ids are [N], [int32]/[int64] values are [Z], [[]byte] is
      [list Byte.byte]. *)

From stdpp Require Import gmap strings list fin_maps pretty.

Open Scope string_scope.
Open Scope list_scope.

Abbreviation bytes := (list Byte.byte).

(** ** Errors and call outcomes *)

(** gRPC status codes used by this file ([google.golang.org/grpc/codes]). *)
Inductive Code := InvalidArgument | NotFound | Unimplemented | Internal.

(** An [error]: either a gRPC status ([status.Error], [status.Errorf]) or a
    plain error carrying only a message ([fmt.Errorf], handler errors). *)
Inductive Error :=
| StatusError (c : Code) (msg : string)
| PlainError (msg : string).

(** [err.Error()] as used when an error is formatted with [%s]. *)
Definition Error_msg (e : Error) : string :=
  match e with
  | StatusError _ m => m
  | PlainError m => m
  end.

(** How a Go call ends: it returns, it panics, or it blocks forever. *)
Inductive GoResult (A : Type) :=
| Returns (a : A)
| Panics (reason : string)
| BlocksForever.
Arguments Returns {A} a.
Arguments Panics {A} reason.
Arguments BlocksForever {A}.

(** ** Capability values *)

(** The dynamic value held by an [interface{}] passed to [RegisterSqlInfo]:
    one of the six shapes of the type switch, or a value of any other
    dynamic type, kept with the name [%T] prints for it (["<nil>"] for a
    nil interface). *)
Inductive GoValue :=
| VString (s : string)
| VBool (b : bool)
| VInt64 (n : Z)
| VInt32 (n : Z)
| VStringList (l : list string)
| VInt32ToInt32ListMap (m : gmap Z (list Z))
| VOther (tyname : string).

(** The [%T] verb of [fmt]. *)
Definition type_name (v : GoValue) : string :=
  match v with
  | VString _ => "string"
  | VBool _ => "bool"
  | VInt64 _ => "int64"
  | VInt32 _ => "int32"
  | VStringList _ => "[]string"
  | VInt32ToInt32ListMap _ => "map[int32][]int32"
  | VOther t => t
  end.

(** The six names of the [case] of the type switch in [RegisterSqlInfo]. *)
Definition permitted_type_names : list string :=
  ["string"; "bool"; "int64"; "int32"; "[]string"; "map[int32][]int32"].

(** A value of one of the six permitted shapes. *)
Definition permitted (v : GoValue) : bool :=
  match v with
  | VOther _ => false
  | _ => true
  end.

(** [SqlInfoResultMap] is [map[uint32]interface{}]; a Go map variable is
    [nil] ([None]) until it is made. *)
Abbreviation SqlInfoResultMap := (option (gmap N GoValue)).

(** [val, ok := m[k]]: reading a nil map finds nothing. *)
Definition map_get (m : SqlInfoResultMap) (k : N) : option GoValue :=
  match m with
  | None => None
  | Some g => g !! k
  end.

(** [len(m)]: a nil map has length 0. *)
Definition map_len (m : SqlInfoResultMap) : nat :=
  match m with
  | None => 0
  | Some g => size g
  end.

(** ** Schemas, records and the dense union of SqlInfo values *)

Inductive ValueType :=
| Utf8 | Boolean | Int64 | Int32
| ListOf (elem : ValueType)
| MapOf (key item : ValueType).

Inductive DataType :=
| Uint32
| Plain (t : ValueType)
| DenseUnionOf (children : list (string * ValueType)) (codes : list Z).

Record Field := { f_name : string; f_type : DataType; f_nullable : bool }.

Abbreviation Schema := (list Field).

#[global] Instance ValueType_eq_dec : EqDecision ValueType.
Proof. solve_decision. Defined.
#[global] Instance DataType_eq_dec : EqDecision DataType.
Proof. solve_decision. Defined.
#[global] Instance Field_eq_dec : EqDecision Field.
Proof. solve_decision. Defined.

(** Modelled from the spec: [schema_ref.SqlInfo], declared in package
    schema_ref; the capability record schema of the external interfaces
    section, with the fixed type codes 0..5. *)
Definition SqlInfo_schema : Schema :=
  [ {| f_name := "info_name"; f_type := Uint32; f_nullable := false |};
    {| f_name := "value";
       f_type := DenseUnionOf
         [ ("string_value", Utf8); ("bool_value", Boolean);
           ("bigint_value", Int64); ("int_value", Int32);
           ("string_list", ListOf Utf8);
           ("int32_to_int32_list_map", MapOf Int32 (ListOf Int32)) ]
         [0; 1; 2; 3; 4; 5]%Z;
       f_nullable := false |} ].

(** A dense union column: per row a type code and an offset into the child
    array of that code; one child array per value shape. *)
Record DenseUnion := {
  typeIDs : list Z;
  offsets : list nat;
  string_value : list string;
  bool_value : list bool;
  bigint_value : list Z;
  int_value : list Z;
  string_list : list (list string);
  int32_to_int32_list_map : list (gmap Z (list Z))
}.

Definition empty_union : DenseUnion :=
  {| typeIDs := []; offsets := []; string_value := []; bool_value := [];
     bigint_value := []; int_value := []; string_list := [];
     int32_to_int32_list_map := [] |}.

(** A record batch with the two columns of the SqlInfo schema. *)
Record Record_ := {
  rec_schema : Schema;
  info_name : list N;
  value : DenseUnion
}.

(** [Record.NumRows]: the length of the first column. *)
Definition NumRows (r : Record_) : nat := length (info_name r).

(** The wire type code of a value's shape. *)
Definition type_code (v : GoValue) : option Z :=
  match v with
  | VString _ => Some 0%Z
  | VBool _ => Some 1%Z
  | VInt64 _ => Some 2%Z
  | VInt32 _ => Some 3%Z
  | VStringList _ => Some 4%Z
  | VInt32ToInt32ListMap _ => Some 5%Z
  | VOther _ => None
  end.

(** Modelled from the spec: [sqlInfoResultBuilder.Append], declared in
    sql_info.go; it dispatches on the value's shape, appends the value to the
    union child of that shape and records the type code and the child offset.
    A value outside the six shapes matches no child and appends nothing. *)
Definition sqlInfoResultBuilder_Append (u : DenseUnion) (v : GoValue) : DenseUnion :=
  match v with
  | VString s =>
      {| typeIDs := typeIDs u ++ [0%Z];
         offsets := offsets u ++ [length (string_value u)];
         string_value := string_value u ++ [s];
         bool_value := bool_value u; bigint_value := bigint_value u;
         int_value := int_value u; string_list := string_list u;
         int32_to_int32_list_map := int32_to_int32_list_map u |}
  | VBool b =>
      {| typeIDs := typeIDs u ++ [1%Z];
         offsets := offsets u ++ [length (bool_value u)];
         string_value := string_value u;
         bool_value := bool_value u ++ [b]; bigint_value := bigint_value u;
         int_value := int_value u; string_list := string_list u;
         int32_to_int32_list_map := int32_to_int32_list_map u |}
  | VInt64 n =>
      {| typeIDs := typeIDs u ++ [2%Z];
         offsets := offsets u ++ [length (bigint_value u)];
         string_value := string_value u;
         bool_value := bool_value u; bigint_value := bigint_value u ++ [n];
         int_value := int_value u; string_list := string_list u;
         int32_to_int32_list_map := int32_to_int32_list_map u |}
  | VInt32 n =>
      {| typeIDs := typeIDs u ++ [3%Z];
         offsets := offsets u ++ [length (int_value u)];
         string_value := string_value u;
         bool_value := bool_value u; bigint_value := bigint_value u;
         int_value := int_value u ++ [n]; string_list := string_list u;
         int32_to_int32_list_map := int32_to_int32_list_map u |}
  | VStringList l =>
      {| typeIDs := typeIDs u ++ [4%Z];
         offsets := offsets u ++ [length (string_list u)];
         string_value := string_value u;
         bool_value := bool_value u; bigint_value := bigint_value u;
         int_value := int_value u; string_list := string_list u ++ [l];
         int32_to_int32_list_map := int32_to_int32_list_map u |}
  | VInt32ToInt32ListMap m =>
      {| typeIDs := typeIDs u ++ [5%Z];
         offsets := offsets u ++ [length (int32_to_int32_list_map u)];
         string_value := string_value u;
         bool_value := bool_value u; bigint_value := bigint_value u;
         int_value := int_value u; string_list := string_list u;
         int32_to_int32_list_map := int32_to_int32_list_map u ++ [m] |}
  | VOther _ => u
  end.

(** Reading the child slot [(code, off)] of a dense union. *)
Definition union_slot (u : DenseUnion) (code : Z) (off : nat) : option GoValue :=
  if decide (code = 0%Z) then VString <$> string_value u !! off
  else if decide (code = 1%Z) then VBool <$> bool_value u !! off
  else if decide (code = 2%Z) then VInt64 <$> bigint_value u !! off
  else if decide (code = 3%Z) then VInt32 <$> int_value u !! off
  else if decide (code = 4%Z) then VStringList <$> string_list u !! off
  else if decide (code = 5%Z) then VInt32ToInt32ListMap <$> int32_to_int32_list_map u !! off
  else None.

(** The value of row [k] of a dense union, decoded as a client does: the
    row's type code selects the child, the row's offset the slot. *)
Definition union_row (u : DenseUnion) (k : nat) : option GoValue :=
  match typeIDs u !! k, offsets u !! k with
  | Some code, Some off => union_slot u code off
  | _, _ => None
  end.

(** ** Flight wire types (package flight) *)

Record FlightDescriptor := {
  desc_Type : N;
  Cmd : bytes;
  Path : list string
}.

Record Ticket := { Ticket_bytes : bytes }.

Record FlightEndpoint := {
  ep_Ticket : option Ticket;
  ep_Location : list string
}.

Record FlightInfo := {
  fi_Schema : bytes;
  fi_FlightDescriptor : option FlightDescriptor;
  fi_Endpoint : list FlightEndpoint;
  TotalRecords : Z;
  TotalBytes : Z
}.

(** [flight.StreamChunk]: a record batch with an optional descriptor and
    app metadata, or an error signalled by the producer. *)
Record StreamChunk := {
  Data : Record_;
  Desc : option FlightDescriptor;
  AppMetadata : bytes;
  Err : option Error
}.

(** A receive-only channel of chunks: [None] is the nil channel, [Some l] a
    channel on which the producer sends the chunks of [l] in order and which
    it then closes. *)
Abbreviation ChunkChan := (option (list StreamChunk)).

Record PutResult := { put_AppMetadata : bytes }.

(** [array.RecordReader]: the records still to be read. *)
Abbreviation RecordReader := (list Record_).

(** Modelled from the spec: [flight.StreamChunksFromReader], declared in
    package flight; it sends one chunk per record of the reader, without
    descriptor or metadata, and closes the channel. *)
Definition StreamChunksFromReader (rdr : RecordReader) : list StreamChunk :=
  (fun r => {| Data := r; Desc := None; AppMetadata := []; Err := None |}) <$> rdr.

(** ** Commands *)

(** The [Any] envelope of protobuf. *)
Record Any := { type_url : string; any_value : bytes }.

(** The protobuf messages an envelope can decode to: the Flight SQL
    commands, tickets and action requests, or any other registered message,
    kept with its type URL. *)
Inductive Message :=
| CommandStatementQuery (Query : string)
| CommandPreparedStatementQuery (PreparedStatementHandle : bytes)
| CommandStatementUpdate (Query : string)
| CommandPreparedStatementUpdate (PreparedStatementHandle : bytes)
| CommandGetCatalogs
| CommandGetDbSchemas (Catalog DbSchemaFilterPattern : option string)
| CommandGetTables (Catalog DbSchemaFilterPattern TableNameFilterPattern : option string)
    (TableTypes : list string) (IncludeSchema : bool)
| CommandGetTableTypes
| CommandGetXdbcTypeInfo (DataType : option Z)
| CommandGetSqlInfo (Info : list N)
| CommandGetPrimaryKeys (Catalog DbSchema : option string) (Table : string)
| CommandGetExportedKeys (Catalog DbSchema : option string) (Table : string)
| CommandGetImportedKeys (Catalog DbSchema : option string) (Table : string)
| CommandGetCrossReference (PkCatalog PkDbSchema : option string) (PkTable : string)
    (FkCatalog FkDbSchema : option string) (FkTable : string)
| TicketStatementQuery (StatementHandle : bytes)
| ActionCreatePreparedStatementRequest (Query : string)
| ActionClosePreparedStatementRequest (PreparedStatementHandle : bytes)
| OtherMessage (url : string).

(** The request interfaces that wrap the protobuf commands; each is given by
    the values of its getters. *)
Abbreviation StatementQuery := string.
Abbreviation StatementUpdate := string.
Abbreviation StatementQueryTicket := bytes.
Abbreviation PreparedStatementQuery := bytes.
Abbreviation PreparedStatementUpdate := bytes.
Abbreviation ActionClosePreparedStatementRequest_ := bytes.
Abbreviation ActionCreatePreparedStatementRequest_ := string.
Abbreviation GetXdbcTypeInfo := (option Z).
Abbreviation GetSqlInfo := (list N).

Record GetDBSchemas := {
  GetCatalog : option string;
  GetDBSchemaFilterPattern : option string
}.

Record GetTables := {
  tables_GetCatalog : option string;
  tables_GetDBSchemaFilterPattern : option string;
  GetTableNameFilterPattern : option string;
  GetTableTypes : list string;
  GetIncludeSchema : bool
}.

Record TableRef := {
  Catalog : option string;
  DBSchema : option string;
  Table : string
}.

Record CrossTableRef := { PKRef : TableRef; FKRef : TableRef }.

(** Modelled from the spec: the table-ref adapters [pkToTableRef],
    [exkToTableRef], [impkToTableRef] and [toCrossTableRef], declared
    elsewhere in the package; they normalise the key commands to the
    common [{catalog, dbSchema, table}] shape. *)
Definition toTableRef (catalog dbSchema : option string) (table : string) : TableRef :=
  {| Catalog := catalog; DBSchema := dbSchema; Table := table |}.

Definition toCrossTableRef (pkc pks : option string) (pkt : string)
    (fkc fks : option string) (fkt : string) : CrossTableRef :=
  {| PKRef := toTableRef pkc pks pkt; FKRef := toTableRef fkc fks fkt |}.

Record ActionCreatePreparedStatementResult := {
  Handle : bytes;
  DatasetSchema : option Schema;
  ParameterSchema : option Schema
}.

(** ** Streams *)

(** What the [DoGet] adapter does to its send stream and to the chunks. *)
Inductive GetEvent :=
| EvSetFlightDescriptor (d : option FlightDescriptor)
| EvWrite (rec : Record_) (meta : bytes) (res : option Error)
| EvRelease (rec : Record_)
| EvClose.

(** What [DoPut] does to its stream. *)
Inductive PutEvent :=
| EvSend (r : PutResult) (res : option Error)
| EvReaderRelease.

(** [flight.FlightService_DoGetServer] with the record writer laid over it:
    the events so far, and the results the transport will give to the
    coming writes (a write past the end of the list succeeds). *)
Record DoGetServer := {
  get_trace : list GetEvent;
  get_faults : list (option Error)
}.

Definition get_log (e : GetEvent) (st : DoGetServer) : DoGetServer :=
  {| get_trace := get_trace st ++ [e]; get_faults := get_faults st |}.

(** [wr.SetFlightDescriptor(d)]. *)
Definition SetFlightDescriptor (d : option FlightDescriptor) (st : DoGetServer) : DoGetServer :=
  get_log (EvSetFlightDescriptor d) st.

(** [wr.WriteWithAppMetadata(rec, meta)]: the transport decides the result. *)
Definition WriteWithAppMetadata (rec : Record_) (meta : bytes) (st : DoGetServer)
    : option Error * DoGetServer :=
  match get_faults st with
  | [] => (None, get_log (EvWrite rec meta None) st)
  | res :: rest =>
      (res, {| get_trace := get_trace st ++ [EvWrite rec meta res];
               get_faults := rest |})
  end.

(** [rec.Release()]. *)
Definition Release (rec : Record_) (st : DoGetServer) : DoGetServer :=
  get_log (EvRelease rec) st.

(** [wr.Close()], whose result [DoGet] drops. *)
Definition Close (st : DoGetServer) : DoGetServer := get_log EvClose st.

(** [flight.MessageReader] as [DoPut] uses it: the descriptor that came with
    the schema message (a pointer, possibly nil) and the uploaded batches. *)
Record MessageReader := {
  LatestFlightDescriptor : option FlightDescriptor;
  reader_batches : list Record_
}.

(** [flight.FlightService_DoPutServer]: what [flight.NewRecordReader] makes
    of the input side (an error message or a reader), the events so far and
    the results the transport will give to the coming sends. *)
Record DoPutServer := {
  put_reader : string + MessageReader;
  put_trace : list PutEvent;
  put_faults : list (option Error)
}.

(** [stream.Send(out)] on a [DoPut] stream. *)
Definition Send (out : PutResult) (st : DoPutServer) : option Error * DoPutServer :=
  match put_faults st with
  | [] => (None, {| put_reader := put_reader st;
                    put_trace := put_trace st ++ [EvSend out None];
                    put_faults := [] |})
  | res :: rest =>
      (res, {| put_reader := put_reader st;
               put_trace := put_trace st ++ [EvSend out res];
               put_faults := rest |})
  end.

(** [rdr.Release()] on the reader of a [DoPut] stream. *)
Definition ReaderRelease (st : DoPutServer) : DoPutServer :=
  {| put_reader := put_reader st;
     put_trace := put_trace st ++ [EvReaderRelease];
     put_faults := put_faults st |}.

(** [putMetadataWriter.WriteMetadata]. *)
Definition WriteMetadata (appMetadata : bytes) (st : DoPutServer)
    : option Error * DoPutServer :=
  Send {| put_AppMetadata := appMetadata |} st.

(** The messages sent on a [DoPut] stream, in order. *)
Definition put_sends (st : DoPutServer) : list PutResult :=
  omap (fun e => match e with EvSend r _ => Some r | EvReaderRelease => None end)
       (put_trace st).

#[global] Instance DenseUnion_eq_dec : EqDecision DenseUnion.
Proof. solve_decision. Defined.
#[global] Instance Record_eq_dec : EqDecision Record_.
Proof. solve_decision. Defined.

(** [e] is a release of the record [rec]. *)
Definition is_release_of (rec : Record_) (e : GetEvent) : bool :=
  match e with
  | EvRelease r => bool_decide (r = rec)
  | _ => false
  end.

(** The number of releases of [rec] in a [DoGet] trace. *)
Definition releases_of (rec : Record_) (t : list GetEvent) : nat :=
  length (List.filter (is_release_of rec) t).

(** The records written to the wire in a [DoGet] trace, in order, failed
    writes included. *)
Definition writes_of (t : list GetEvent) : list Record_ :=
  omap (fun e => match e with EvWrite r _ _ => Some r | _ => None end) t.

(** ** The collaborators outside this file

    The call context, the memory allocator, the schema serializer of package
    flight, the protobuf codec and the record reader of package array. *)
Class External := {
  Context : Type;
  Allocator : Type;
  (** [memory.DefaultAllocator] *)
  DefaultAllocator : Allocator;
  (** [flight.SerializeSchema(schema, mem)] *)
  SerializeSchema : Schema -> Allocator -> bytes;
  (** [proto.Unmarshal(b, &anycmd)]: the error's message, or the envelope *)
  proto_Unmarshal : bytes -> string + Any;
  (** [anycmd.UnmarshalNew()]: the error's message, or the decoded message *)
  UnmarshalNew : Any -> string + Message;
  (** [proto.Marshal(&pb.DoPutUpdateResult{RecordCount: n})] *)
  proto_Marshal_DoPutUpdateResult : Z -> string + bytes;
  (** [array.NewRecordReader(schema, recs)] *)
  NewRecordReader : Schema -> list Record_ -> string + RecordReader
}.

Section FlightSql.

Context `{External}.

(** ** The handler interface *)

Definition InfoResult : Type := option FlightInfo * option Error.
Definition StreamResult : Type := option Schema * ChunkChan * option Error.
Definition MetadataWriter : Type := bytes -> DoPutServer -> option Error * DoPutServer.

(** [Server]: the methods a Flight SQL server implements, over the state
    [S] of the implementation. *)
Set Implicit Arguments.

Record Server (S : Type) := {
  GetFlightInfoStatement : Context -> StatementQuery -> FlightDescriptor -> S -> InfoResult * S;
  DoGetStatement : Context -> StatementQueryTicket -> S -> StreamResult * S;
  GetFlightInfoPreparedStatement : Context -> PreparedStatementQuery -> FlightDescriptor -> S -> InfoResult * S;
  DoGetPreparedStatement : Context -> PreparedStatementQuery -> S -> StreamResult * S;
  GetFlightInfoCatalogs : Context -> FlightDescriptor -> S -> InfoResult * S;
  DoGetCatalogs : Context -> S -> StreamResult * S;
  GetFlightInfoXdbcTypeInfo : Context -> GetXdbcTypeInfo -> FlightDescriptor -> S -> InfoResult * S;
  DoGetXdbcTypeInfo : Context -> GetXdbcTypeInfo -> S -> StreamResult * S;
  GetFlightInfoSqlInfo : Context -> GetSqlInfo -> FlightDescriptor -> S -> InfoResult * S;
  DoGetSqlInfo : Context -> GetSqlInfo -> S -> StreamResult * S;
  GetFlightInfoSchemas : Context -> GetDBSchemas -> FlightDescriptor -> S -> InfoResult * S;
  DoGetDBSchemas : Context -> GetDBSchemas -> S -> StreamResult * S;
  GetFlightInfoTables : Context -> GetTables -> FlightDescriptor -> S -> InfoResult * S;
  DoGetTables : Context -> GetTables -> S -> StreamResult * S;
  GetFlightInfoTableTypes : Context -> FlightDescriptor -> S -> InfoResult * S;
  DoGetTableTypes : Context -> S -> StreamResult * S;
  GetFlightInfoPrimaryKeys : Context -> TableRef -> FlightDescriptor -> S -> InfoResult * S;
  DoGetPrimaryKeys : Context -> TableRef -> S -> StreamResult * S;
  GetFlightInfoExportedKeys : Context -> TableRef -> FlightDescriptor -> S -> InfoResult * S;
  DoGetExportedKeys : Context -> TableRef -> S -> StreamResult * S;
  GetFlightInfoImportedKeys : Context -> TableRef -> FlightDescriptor -> S -> InfoResult * S;
  DoGetImportedKeys : Context -> TableRef -> S -> StreamResult * S;
  GetFlightInfoCrossReference : Context -> CrossTableRef -> FlightDescriptor -> S -> InfoResult * S;
  DoGetCrossReference : Context -> CrossTableRef -> S -> StreamResult * S;
  DoPutCommandStatementUpdate : Context -> StatementUpdate -> S -> (Z * option Error) * S;
  CreatePreparedStatement : Context -> ActionCreatePreparedStatementRequest_ -> S
                            -> (ActionCreatePreparedStatementResult * option Error) * S;
  ClosePreparedStatement : Context -> ActionClosePreparedStatementRequest_ -> S -> option Error * S;
  DoPutPreparedStatementQuery : Context -> PreparedStatementQuery -> MessageReader -> MetadataWriter
                                -> DoPutServer -> S -> (option Error * DoPutServer) * S;
  DoPutPreparedStatementUpdate : Context -> PreparedStatementUpdate -> MessageReader -> S
                                 -> (Z * option Error) * S
}.

Unset Implicit Arguments.

(** ** BaseServer *)

Record BaseServer := {
  sqlInfoToResult : SqlInfoResultMap;
  Alloc : option Allocator
}.

(** The zero value of [BaseServer]. *)
Definition zero_BaseServer : BaseServer :=
  {| sqlInfoToResult := None; Alloc := None |}.

(** [if b.Alloc == nil { b.Alloc = memory.DefaultAllocator }]. *)
Definition default_Alloc (b : BaseServer) : BaseServer :=
  match Alloc b with
  | None => {| sqlInfoToResult := sqlInfoToResult b; Alloc := Some DefaultAllocator |}
  | Some _ => b
  end.

Definition the_Alloc (b : BaseServer) : Allocator :=
  match Alloc b with
  | None => DefaultAllocator
  | Some a => a
  end.

(** [RegisterSqlInfo]: the type switch, the unguarded store
    [b.sqlInfoToResult[uint32(id)] = result], which panics on a nil map, and
    the [fmt.Errorf] of the default case. *)
Definition RegisterSqlInfo (b : BaseServer) (id : N) (result : GoValue)
    : GoResult (option Error * BaseServer) :=
  match result with
  | VString _ | VBool _ | VInt64 _ | VInt32 _ | VStringList _
  | VInt32ToInt32ListMap _ =>
      match sqlInfoToResult b with
      | None => Panics "assignment to entry in nil map"
      | Some m =>
          Returns (None, {| sqlInfoToResult := Some (<[id := result]> m);
                            Alloc := Alloc b |})
      end
  | VOther _ =>
      Returns (Some (PlainError ("invalid sql info type '" +:+ type_name result
                                 +:+ "' registered for id: " +:+ pretty id)), b)
  end.

Definition BaseServer_GetFlightInfoStatement (_ : Context) (_ : StatementQuery)
    (_ : FlightDescriptor) (b : BaseServer) : InfoResult * BaseServer :=
  ((None, Some (StatusError Unimplemented "GetFlightInfoStatement not implemented")), b).

Definition BaseServer_DoGetStatement (_ : Context) (_ : StatementQueryTicket)
    (b : BaseServer) : StreamResult * BaseServer :=
  ((None, None, Some (StatusError Unimplemented "DoGetStatement not implemented")), b).

Definition BaseServer_GetFlightInfoPreparedStatement (_ : Context) (_ : PreparedStatementQuery)
    (_ : FlightDescriptor) (b : BaseServer) : InfoResult * BaseServer :=
  ((None, Some (StatusError Unimplemented "GetFlightInfoPreparedStatement not implemented")), b).

Definition BaseServer_DoGetPreparedStatement (_ : Context) (_ : PreparedStatementQuery)
    (b : BaseServer) : StreamResult * BaseServer :=
  ((None, None, Some (StatusError Unimplemented "DoGetPreparedStatement not implemented")), b).

Definition BaseServer_GetFlightInfoCatalogs (_ : Context) (_ : FlightDescriptor)
    (b : BaseServer) : InfoResult * BaseServer :=
  ((None, Some (StatusError Unimplemented "GetFlightInfoCatalogs not implemented")), b).

Definition BaseServer_DoGetCatalogs (_ : Context) (b : BaseServer)
    : StreamResult * BaseServer :=
  ((None, None, Some (StatusError Unimplemented "DoGetCatalogs not implemented")), b).

Definition BaseServer_GetFlightInfoXdbcTypeInfo (_ : Context) (_ : GetXdbcTypeInfo)
    (_ : FlightDescriptor) (b : BaseServer) : InfoResult * BaseServer :=
  ((None, Some (StatusError Unimplemented "GetFlightInfoXdbcTypeInfo not implemented")), b).

Definition BaseServer_DoGetXdbcTypeInfo (_ : Context) (_ : GetXdbcTypeInfo)
    (b : BaseServer) : StreamResult * BaseServer :=
  ((None, None, Some (StatusError Unimplemented "DoGetXdbcTypeInfo not implemented")), b).

(** [GetFlightInfoSqlInfo]: the FlightInfo for retrieving the registered
    sql info, or NotFound when nothing is registered. *)
Definition BaseServer_GetFlightInfoSqlInfo (_ : Context) (_ : GetSqlInfo)
    (desc : FlightDescriptor) (b : BaseServer) : InfoResult * BaseServer :=
  if decide (map_len (sqlInfoToResult b) = 0) then
    ((None, Some (StatusError NotFound "no sql information available")), b)
  else
    let b := default_Alloc b in
    ((Some {| fi_Endpoint := [ {| ep_Ticket := Some {| Ticket_bytes := Cmd desc |};
                                  ep_Location := [] |} ];
              fi_FlightDescriptor := Some desc;
              TotalRecords := -1;
              TotalBytes := -1;
              fi_Schema := SerializeSchema SqlInfo_schema (the_Alloc b) |},
      None), b).

(** The two field builders of the record builder in [DoGetSqlInfo]. *)
Record RecordBuilder := {
  nameFieldBldr : list N;
  valFieldBldr : DenseUnion
}.

(** [array.NewRecordBuilder(b.Alloc, schema_ref.SqlInfo)]. *)
Definition NewRecordBuilder : RecordBuilder :=
  {| nameFieldBldr := []; valFieldBldr := empty_union |}.

(** [bldr.NewRecord()]; the two field builders hold the same number of
    rows whenever every appended value has one of the six shapes. *)
Definition NewRecord (bldr : RecordBuilder) : Record_ :=
  {| rec_schema := SqlInfo_schema;
     info_name := nameFieldBldr bldr;
     value := valFieldBldr bldr |}.

(** The loop of [DoGetSqlInfo] over [cmd.GetInfo()]: it returns at the first
    id without a registered value, and otherwise appends the id and its
    value to the two field builders. *)
Fixpoint populate (m : SqlInfoResultMap) (infos : list N) (bldr : RecordBuilder)
    : Error + RecordBuilder :=
  match infos with
  | [] => inr bldr
  | info :: rest =>
      match map_get m info with
      | None =>
          inl (StatusError NotFound
                 ("no information for sql info number " +:+ pretty info))
      | Some val =>
          populate m rest
            {| nameFieldBldr := nameFieldBldr bldr ++ [info];
               valFieldBldr := sqlInfoResultBuilder_Append (valFieldBldr bldr) val |}
      end
  end.

(** [DoGetSqlInfo]: the schema and the channel of the stream holding the
    list of sqlinfo results. *)
Definition BaseServer_DoGetSqlInfo (_ : Context) (cmd : GetSqlInfo) (b : BaseServer)
    : StreamResult * BaseServer :=
  let b := default_Alloc b in
  match populate (sqlInfoToResult b) cmd NewRecordBuilder with
  | inl err => ((None, None, Some err), b)
  | inr bldr =>
      let batch := NewRecord bldr in
      match NewRecordReader SqlInfo_schema [batch] with
      | inl msg =>
          ((None, None,
            Some (StatusError Internal ("error producing record response: " +:+ msg))), b)
      | inr rdr =>
          ((Some SqlInfo_schema, Some (StreamChunksFromReader rdr), None), b)
      end
  end.

Definition BaseServer_GetFlightInfoSchemas (_ : Context) (_ : GetDBSchemas)
    (_ : FlightDescriptor) (b : BaseServer) : InfoResult * BaseServer :=
  ((None, Some (StatusError Unimplemented "GetFlightInfoSchemas not implemented")), b).

Definition BaseServer_DoGetDBSchemas (_ : Context) (_ : GetDBSchemas)
    (b : BaseServer) : StreamResult * BaseServer :=
  ((None, None, Some (StatusError Unimplemented "DoGetDBSchemas not implemented")), b).

Definition BaseServer_GetFlightInfoTables (_ : Context) (_ : GetTables)
    (_ : FlightDescriptor) (b : BaseServer) : InfoResult * BaseServer :=
  ((None, Some (StatusError Unimplemented "GetFlightInfoTables not implemented")), b).

Definition BaseServer_DoGetTables (_ : Context) (_ : GetTables)
    (b : BaseServer) : StreamResult * BaseServer :=
  ((None, None, Some (StatusError Unimplemented "DoGetTables not implemented")), b).

Definition BaseServer_GetFlightInfoTableTypes (_ : Context) (_ : FlightDescriptor)
    (b : BaseServer) : InfoResult * BaseServer :=
  ((None, Some (StatusError Unimplemented "GetFlightInfoTableTypes not implemented")), b).

Definition BaseServer_DoGetTableTypes (_ : Context) (b : BaseServer)
    : StreamResult * BaseServer :=
  ((None, None, Some (StatusError Unimplemented "DoGetTableTypes not implemented")), b).

Definition BaseServer_GetFlightInfoPrimaryKeys (_ : Context) (_ : TableRef)
    (_ : FlightDescriptor) (b : BaseServer) : InfoResult * BaseServer :=
  ((None, Some (StatusError Unimplemented "GetFlightInfoPrimaryKeys not implemented")), b).

Definition BaseServer_DoGetPrimaryKeys (_ : Context) (_ : TableRef)
    (b : BaseServer) : StreamResult * BaseServer :=
  ((None, None, Some (StatusError Unimplemented "DoGetPrimaryKeys not implemented")), b).

Definition BaseServer_GetFlightInfoExportedKeys (_ : Context) (_ : TableRef)
    (_ : FlightDescriptor) (b : BaseServer) : InfoResult * BaseServer :=
  ((None, Some (StatusError Unimplemented "GetFlightInfoExportedKeys not implemented")), b).

Definition BaseServer_DoGetExportedKeys (_ : Context) (_ : TableRef)
    (b : BaseServer) : StreamResult * BaseServer :=
  ((None, None, Some (StatusError Unimplemented "DoGetExportedKeys not implemented")), b).

Definition BaseServer_GetFlightInfoImportedKeys (_ : Context) (_ : TableRef)
    (_ : FlightDescriptor) (b : BaseServer) : InfoResult * BaseServer :=
  ((None, Some (StatusError Unimplemented "GetFlightInfoImportedKeys not implemented")), b).

Definition BaseServer_DoGetImportedKeys (_ : Context) (_ : TableRef)
    (b : BaseServer) : StreamResult * BaseServer :=
  ((None, None, Some (StatusError Unimplemented "DoGetImportedKeys not implemented")), b).

Definition BaseServer_GetFlightInfoCrossReference (_ : Context) (_ : CrossTableRef)
    (_ : FlightDescriptor) (b : BaseServer) : InfoResult * BaseServer :=
  ((None, Some (StatusError Unimplemented "GetFlightInfoCrossReference not implemented")), b).

Definition BaseServer_DoGetCrossReference (_ : Context) (_ : CrossTableRef)
    (b : BaseServer) : StreamResult * BaseServer :=
  ((None, None, Some (StatusError Unimplemented "DoGetCrossReference not implemented")), b).

(** The zero value [res] that [CreatePreparedStatement] returns. *)
Definition zero_ActionCreatePreparedStatementResult : ActionCreatePreparedStatementResult :=
  {| Handle := []; DatasetSchema := None; ParameterSchema := None |}.

Definition BaseServer_CreatePreparedStatement (_ : Context)
    (_ : ActionCreatePreparedStatementRequest_) (b : BaseServer)
    : (ActionCreatePreparedStatementResult * option Error) * BaseServer :=
  ((zero_ActionCreatePreparedStatementResult,
    Some (StatusError Unimplemented "CreatePreparedStatement not implemented")), b).

Definition BaseServer_ClosePreparedStatement (_ : Context)
    (_ : ActionClosePreparedStatementRequest_) (b : BaseServer)
    : option Error * BaseServer :=
  (Some (StatusError Unimplemented "ClosePreparedStatement not implemented"), b).

Definition BaseServer_DoPutCommandStatementUpdate (_ : Context) (_ : StatementUpdate)
    (b : BaseServer) : (Z * option Error) * BaseServer :=
  ((0%Z, Some (StatusError Unimplemented "DoPutCommandStatementUpdate not implemented")), b).

Definition BaseServer_DoPutPreparedStatementQuery (_ : Context) (_ : PreparedStatementQuery)
    (_ : MessageReader) (_ : MetadataWriter) (stream : DoPutServer) (b : BaseServer)
    : (option Error * DoPutServer) * BaseServer :=
  ((Some (StatusError Unimplemented "DoPutPreparedStatementQuery not implemented"), stream), b).

Definition BaseServer_DoPutPreparedStatementUpdate (_ : Context) (_ : PreparedStatementUpdate)
    (_ : MessageReader) (b : BaseServer) : (Z * option Error) * BaseServer :=
  ((0%Z, Some (StatusError Unimplemented "DoPutPreparedStatementUpdate not implemented")), b).

(** The base server implements the [Server] interface with the methods
    above (the assertion at the end of the source file). *)
Definition BaseServer_Server : Server BaseServer :=
  {| GetFlightInfoStatement := BaseServer_GetFlightInfoStatement;
     DoGetStatement := BaseServer_DoGetStatement;
     GetFlightInfoPreparedStatement := BaseServer_GetFlightInfoPreparedStatement;
     DoGetPreparedStatement := BaseServer_DoGetPreparedStatement;
     GetFlightInfoCatalogs := BaseServer_GetFlightInfoCatalogs;
     DoGetCatalogs := BaseServer_DoGetCatalogs;
     GetFlightInfoXdbcTypeInfo := BaseServer_GetFlightInfoXdbcTypeInfo;
     DoGetXdbcTypeInfo := BaseServer_DoGetXdbcTypeInfo;
     GetFlightInfoSqlInfo := BaseServer_GetFlightInfoSqlInfo;
     DoGetSqlInfo := BaseServer_DoGetSqlInfo;
     GetFlightInfoSchemas := BaseServer_GetFlightInfoSchemas;
     DoGetDBSchemas := BaseServer_DoGetDBSchemas;
     GetFlightInfoTables := BaseServer_GetFlightInfoTables;
     DoGetTables := BaseServer_DoGetTables;
     GetFlightInfoTableTypes := BaseServer_GetFlightInfoTableTypes;
     DoGetTableTypes := BaseServer_DoGetTableTypes;
     GetFlightInfoPrimaryKeys := BaseServer_GetFlightInfoPrimaryKeys;
     DoGetPrimaryKeys := BaseServer_DoGetPrimaryKeys;
     GetFlightInfoExportedKeys := BaseServer_GetFlightInfoExportedKeys;
     DoGetExportedKeys := BaseServer_DoGetExportedKeys;
     GetFlightInfoImportedKeys := BaseServer_GetFlightInfoImportedKeys;
     DoGetImportedKeys := BaseServer_DoGetImportedKeys;
     GetFlightInfoCrossReference := BaseServer_GetFlightInfoCrossReference;
     DoGetCrossReference := BaseServer_DoGetCrossReference;
     DoPutCommandStatementUpdate := BaseServer_DoPutCommandStatementUpdate;
     CreatePreparedStatement := BaseServer_CreatePreparedStatement;
     ClosePreparedStatement := BaseServer_ClosePreparedStatement;
     DoPutPreparedStatementQuery := BaseServer_DoPutPreparedStatementQuery;
     DoPutPreparedStatementUpdate := BaseServer_DoPutPreparedStatementUpdate |}.

(** ** flightSqlServer: routing from FlightRPC to FlightSQL *)

Section Router.

Context {S : Type}.
(** The [srv] field of [flightSqlServer]. *)
Variable srv : Server S.

(** [GetFlightInfo]: decode the envelope of [request.Cmd] and call the
    handler of the decoded command. *)
Definition GetFlightInfo (ctx : Context) (request : FlightDescriptor) (s : S)
    : InfoResult * S :=
  match proto_Unmarshal (Cmd request) with
  | inl msg =>
      ((None, Some (StatusError InvalidArgument ("unable to parse command: " +:+ msg))), s)
  | inr anycmd =>
      match UnmarshalNew anycmd with
      | inl msg =>
          ((None, Some (StatusError InvalidArgument
                          ("could not unmarshal Any to a command type: " +:+ msg))), s)
      | inr cmd =>
          match cmd with
          | CommandStatementQuery q =>
              GetFlightInfoStatement  srv ctx q request s
          | CommandPreparedStatementQuery h =>
              GetFlightInfoPreparedStatement  srv ctx h request s
          | CommandGetCatalogs =>
              GetFlightInfoCatalogs  srv ctx request s
          | CommandGetDbSchemas c p =>
              GetFlightInfoSchemas  srv ctx
                {| GetCatalog := c; GetDBSchemaFilterPattern := p |} request s
          | CommandGetTables c p t tys inc =>
              GetFlightInfoTables  srv ctx
                {| tables_GetCatalog := c; tables_GetDBSchemaFilterPattern := p;
                   GetTableNameFilterPattern := t; GetTableTypes := tys;
                   GetIncludeSchema := inc |} request s
          | CommandGetTableTypes =>
              GetFlightInfoTableTypes  srv ctx request s
          | CommandGetXdbcTypeInfo dt =>
              GetFlightInfoXdbcTypeInfo  srv ctx dt request s
          | CommandGetSqlInfo info =>
              GetFlightInfoSqlInfo  srv ctx info request s
          | CommandGetPrimaryKeys c d t =>
              GetFlightInfoPrimaryKeys  srv ctx (toTableRef c d t) request s
          | CommandGetExportedKeys c d t =>
              GetFlightInfoExportedKeys  srv ctx (toTableRef c d t) request s
          | CommandGetImportedKeys c d t =>
              GetFlightInfoImportedKeys  srv ctx (toTableRef c d t) request s
          | CommandGetCrossReference pc pd pt fc fd ft =>
              GetFlightInfoCrossReference  srv ctx (toCrossTableRef pc pd pt fc fd ft) request s
          | _ =>
              ((None, Some (StatusError InvalidArgument "requested command is invalid")), s)
          end
      end
  end.

(** The type switch of [DoGet]: the handler's [(sc, cc, err)] for a command
    of the switch, [None] for its default case. *)
Definition DoGet_switch (ctx : Context) (cmd : Message) (s : S)
    : option (StreamResult * S) :=
  match cmd with
  | TicketStatementQuery h => Some (DoGetStatement  srv ctx h s)
  | CommandPreparedStatementQuery h => Some (DoGetPreparedStatement  srv ctx h s)
  | CommandGetCatalogs => Some (DoGetCatalogs  srv ctx s)
  | CommandGetDbSchemas c p =>
      Some (DoGetDBSchemas  srv ctx {| GetCatalog := c; GetDBSchemaFilterPattern := p |} s)
  | CommandGetTables c p t tys inc =>
      Some (DoGetTables  srv ctx
              {| tables_GetCatalog := c; tables_GetDBSchemaFilterPattern := p;
                 GetTableNameFilterPattern := t; GetTableTypes := tys;
                 GetIncludeSchema := inc |} s)
  | CommandGetTableTypes => Some (DoGetTableTypes  srv ctx s)
  | CommandGetXdbcTypeInfo dt => Some (DoGetXdbcTypeInfo  srv ctx dt s)
  | CommandGetSqlInfo info => Some (DoGetSqlInfo  srv ctx info s)
  | CommandGetPrimaryKeys c d t => Some (DoGetPrimaryKeys  srv ctx (toTableRef c d t) s)
  | CommandGetExportedKeys c d t => Some (DoGetExportedKeys  srv ctx (toTableRef c d t) s)
  | CommandGetImportedKeys c d t => Some (DoGetImportedKeys  srv ctx (toTableRef c d t) s)
  | CommandGetCrossReference pc pd pt fc fd ft =>
      Some (DoGetCrossReference  srv ctx (toCrossTableRef pc pd pt fc fd ft) s)
  | _ => None
  end.

(** The loop [for chunk := range cc] of [DoGet], from the current value of
    the named result [err]: at a chunk with an error it returns [err]; a
    failed write returns the write's error; a written chunk is released. *)
Fixpoint DoGet_loop (err : option Error) (cc : list StreamChunk) (stream : DoGetServer)
    : option Error * DoGetServer :=
  match cc with
  | [] => (err, stream)
  | chunk :: rest =>
      match Err chunk with
      | Some _ => (err, stream)
      | None =>
          let stream := SetFlightDescriptor (Desc chunk) stream in
          let '(err, stream) := WriteWithAppMetadata (Data chunk) (AppMetadata chunk) stream in
          match err with
          | Some _ => (err, stream)
          | None => DoGet_loop err rest (Release (Data chunk) stream)
          end
      end
  end.

(** The part of [DoGet] after the switch: return the handler's error, or
    make the record writer and stream the chunks of the channel. Ranging
    over a nil channel never ends. The deferred [wr.Close()] runs on every
    return after the writer is made. *)
Definition DoGet_serve (r : StreamResult * S) (stream : DoGetServer)
    : GoResult (option Error) * DoGetServer * S :=
  let '((sc, cc, err), s) := r in
  match err with
  | Some _ => (Returns err, stream, s)
  | None =>
      match cc with
      | None => (BlocksForever, stream, s)
      | Some chunks =>
          let '(err, stream) := DoGet_loop err chunks stream in
          (Returns err, Close stream, s)
      end
  end.

(** [DoGet]: decode the ticket, call the handler of the decoded command and
    stream the chunks of its channel; [ctx] is [stream.Context()]. *)
Definition DoGet (request : Ticket) (ctx : Context) (stream : DoGetServer) (s : S)
    : GoResult (option Error) * DoGetServer * S :=
  match proto_Unmarshal (Ticket_bytes request) with
  | inl msg =>
      (Returns (Some (StatusError InvalidArgument ("unable to parse ticket: " +:+ msg))),
       stream, s)
  | inr anycmd =>
      match UnmarshalNew anycmd with
      | inl msg =>
          (Returns (Some (StatusError InvalidArgument
                            ("unable to unmarshal proto.Any: " +:+ msg))), stream, s)
      | inr cmd =>
          match DoGet_switch ctx cmd s with
          | None =>
              (Returns (Some (StatusError InvalidArgument "requested command is invalid")),
               stream, s)
          | Some r => DoGet_serve r stream
          end
      end
  end.

(** [DoPut]: open the reader, decode the command of its descriptor and call
    the update or parameter-binding handler; [ctx] is [stream.Context()].
    The deferred [rdr.Release()] runs on every exit after the reader is
    made; [request.Cmd] on a nil descriptor panics. *)
Definition DoPut (ctx : Context) (stream : DoPutServer) (s : S)
    : GoResult (option Error) * DoPutServer * S :=
  match put_reader stream with
  | inl msg =>
      (Returns (Some (StatusError InvalidArgument ("failed to read input stream: " +:+ msg))),
       stream, s)
  | inr rdr =>
      match LatestFlightDescriptor rdr with
      | None =>
          (Panics "invalid memory address or nil pointer dereference",
           ReaderRelease stream, s)
      | Some request =>
          match proto_Unmarshal (Cmd request) with
          | inl msg =>
              (Returns (Some (StatusError InvalidArgument
                                ("unable to parse command: " +:+ msg))),
               ReaderRelease stream, s)
          | inr anycmd =>
              match UnmarshalNew anycmd with
              | inl msg =>
                  (Returns (Some (StatusError InvalidArgument
                                    ("could not unmarshal google.protobuf.Any: " +:+ msg))),
                   ReaderRelease stream, s)
              | inr cmd =>
                  match cmd with
                  | CommandStatementUpdate q =>
                      let '((recordCount, err), s) := DoPutCommandStatementUpdate  srv ctx q s in
                      match err with
                      | Some _ => (Returns err, ReaderRelease stream, s)
                      | None =>
                          match proto_Marshal_DoPutUpdateResult recordCount with
                          | inl msg =>
                              (Returns (Some (StatusError Internal
                                                ("failed to marshal PutResult: " +:+ msg))),
                               ReaderRelease stream, s)
                          | inr md =>
                              let '(res, stream) := Send {| put_AppMetadata := md |} stream in
                              (Returns res, ReaderRelease stream, s)
                          end
                      end
                  | CommandPreparedStatementQuery h =>
                      let '((err, stream), s) :=
                        DoPutPreparedStatementQuery  srv ctx h rdr WriteMetadata stream s in
                      (Returns err, ReaderRelease stream, s)
                  | CommandPreparedStatementUpdate h =>
                      let '((recordCount, err), s) :=
                        DoPutPreparedStatementUpdate  srv ctx h rdr s in
                      match err with
                      | Some _ => (Returns err, ReaderRelease stream, s)
                      | None =>
                          match proto_Marshal_DoPutUpdateResult recordCount with
                          | inl msg =>
                              (Returns (Some (StatusError Internal
                                                ("failed to marshal PutResult: " +:+ msg))),
                               ReaderRelease stream, s)
                          | inr md =>
                              let '(res, stream) := Send {| put_AppMetadata := md |} stream in
                              (Returns res, ReaderRelease stream, s)
                          end
                      end
                  | _ =>
                      (Returns (Some (StatusError InvalidArgument
                                        "the defined request is invalid")),
                       ReaderRelease stream, s)
                  end
              end
          end
      end
  end.

End Router.

(** [bs] decodes to the command [cmd]: both steps of the envelope codec
    succeed. *)
Definition decodes (bs : bytes) (cmd : Message) : Prop :=
  exists anycmd, proto_Unmarshal bs = inr anycmd /\ UnmarshalNew anycmd = inr cmd.

(** The commands named by the cases of the type switch of [GetFlightInfo]. *)
Definition GetFlightInfo_cases (cmd : Message) : bool :=
  match cmd with
  | CommandStatementQuery _ | CommandPreparedStatementQuery _
  | CommandGetCatalogs | CommandGetDbSchemas _ _ | CommandGetTables _ _ _ _ _
  | CommandGetTableTypes | CommandGetXdbcTypeInfo _ | CommandGetSqlInfo _
  | CommandGetPrimaryKeys _ _ _ | CommandGetExportedKeys _ _ _
  | CommandGetImportedKeys _ _ _ | CommandGetCrossReference _ _ _ _ _ _ => true
  | _ => false
  end.

(** The commands named by the cases of the type switch of [DoGet]. *)
Definition DoGet_cases (cmd : Message) : bool :=
  match cmd with
  | TicketStatementQuery _ | CommandPreparedStatementQuery _
  | CommandGetCatalogs | CommandGetDbSchemas _ _ | CommandGetTables _ _ _ _ _
  | CommandGetTableTypes | CommandGetXdbcTypeInfo _ | CommandGetSqlInfo _
  | CommandGetPrimaryKeys _ _ _ | CommandGetExportedKeys _ _ _
  | CommandGetImportedKeys _ _ _ | CommandGetCrossReference _ _ _ _ _ _ => true
  | _ => false
  end.

(** ** Calls of the handler interface *)

(** A call of one method of [Server], with its arguments. *)
Inductive Call :=
| CallGetFlightInfoStatement (ctx : Context) (q : StatementQuery) (d : FlightDescriptor)
| CallDoGetStatement (ctx : Context) (t : StatementQueryTicket)
| CallGetFlightInfoPreparedStatement (ctx : Context) (h : PreparedStatementQuery) (d : FlightDescriptor)
| CallDoGetPreparedStatement (ctx : Context) (h : PreparedStatementQuery)
| CallGetFlightInfoCatalogs (ctx : Context) (d : FlightDescriptor)
| CallDoGetCatalogs (ctx : Context)
| CallGetFlightInfoXdbcTypeInfo (ctx : Context) (x : GetXdbcTypeInfo) (d : FlightDescriptor)
| CallDoGetXdbcTypeInfo (ctx : Context) (x : GetXdbcTypeInfo)
| CallGetFlightInfoSqlInfo (ctx : Context) (i : GetSqlInfo) (d : FlightDescriptor)
| CallDoGetSqlInfo (ctx : Context) (i : GetSqlInfo)
| CallGetFlightInfoSchemas (ctx : Context) (r : GetDBSchemas) (d : FlightDescriptor)
| CallDoGetDBSchemas (ctx : Context) (r : GetDBSchemas)
| CallGetFlightInfoTables (ctx : Context) (r : GetTables) (d : FlightDescriptor)
| CallDoGetTables (ctx : Context) (r : GetTables)
| CallGetFlightInfoTableTypes (ctx : Context) (d : FlightDescriptor)
| CallDoGetTableTypes (ctx : Context)
| CallGetFlightInfoPrimaryKeys (ctx : Context) (r : TableRef) (d : FlightDescriptor)
| CallDoGetPrimaryKeys (ctx : Context) (r : TableRef)
| CallGetFlightInfoExportedKeys (ctx : Context) (r : TableRef) (d : FlightDescriptor)
| CallDoGetExportedKeys (ctx : Context) (r : TableRef)
| CallGetFlightInfoImportedKeys (ctx : Context) (r : TableRef) (d : FlightDescriptor)
| CallDoGetImportedKeys (ctx : Context) (r : TableRef)
| CallGetFlightInfoCrossReference (ctx : Context) (r : CrossTableRef) (d : FlightDescriptor)
| CallDoGetCrossReference (ctx : Context) (r : CrossTableRef)
| CallDoPutCommandStatementUpdate (ctx : Context) (q : StatementUpdate)
| CallCreatePreparedStatement (ctx : Context) (q : ActionCreatePreparedStatementRequest_)
| CallClosePreparedStatement (ctx : Context) (h : ActionClosePreparedStatementRequest_)
| CallDoPutPreparedStatementQuery (ctx : Context) (h : PreparedStatementQuery)
    (rdr : MessageReader) (w : MetadataWriter) (stream : DoPutServer)
| CallDoPutPreparedStatementUpdate (ctx : Context) (h : PreparedStatementUpdate)
    (rdr : MessageReader).

(** The name of the method a call invokes. *)
Definition call_name (c : Call) : string :=
  match c with
  | CallGetFlightInfoStatement _ _ _ => "GetFlightInfoStatement"
  | CallDoGetStatement _ _ => "DoGetStatement"
  | CallGetFlightInfoPreparedStatement _ _ _ => "GetFlightInfoPreparedStatement"
  | CallDoGetPreparedStatement _ _ => "DoGetPreparedStatement"
  | CallGetFlightInfoCatalogs _ _ => "GetFlightInfoCatalogs"
  | CallDoGetCatalogs _ => "DoGetCatalogs"
  | CallGetFlightInfoXdbcTypeInfo _ _ _ => "GetFlightInfoXdbcTypeInfo"
  | CallDoGetXdbcTypeInfo _ _ => "DoGetXdbcTypeInfo"
  | CallGetFlightInfoSqlInfo _ _ _ => "GetFlightInfoSqlInfo"
  | CallDoGetSqlInfo _ _ => "DoGetSqlInfo"
  | CallGetFlightInfoSchemas _ _ _ => "GetFlightInfoSchemas"
  | CallDoGetDBSchemas _ _ => "DoGetDBSchemas"
  | CallGetFlightInfoTables _ _ _ => "GetFlightInfoTables"
  | CallDoGetTables _ _ => "DoGetTables"
  | CallGetFlightInfoTableTypes _ _ => "GetFlightInfoTableTypes"
  | CallDoGetTableTypes _ => "DoGetTableTypes"
  | CallGetFlightInfoPrimaryKeys _ _ _ => "GetFlightInfoPrimaryKeys"
  | CallDoGetPrimaryKeys _ _ => "DoGetPrimaryKeys"
  | CallGetFlightInfoExportedKeys _ _ _ => "GetFlightInfoExportedKeys"
  | CallDoGetExportedKeys _ _ => "DoGetExportedKeys"
  | CallGetFlightInfoImportedKeys _ _ _ => "GetFlightInfoImportedKeys"
  | CallDoGetImportedKeys _ _ => "DoGetImportedKeys"
  | CallGetFlightInfoCrossReference _ _ _ => "GetFlightInfoCrossReference"
  | CallDoGetCrossReference _ _ => "DoGetCrossReference"
  | CallDoPutCommandStatementUpdate _ _ => "DoPutCommandStatementUpdate"
  | CallCreatePreparedStatement _ _ => "CreatePreparedStatement"
  | CallClosePreparedStatement _ _ => "ClosePreparedStatement"
  | CallDoPutPreparedStatementQuery _ _ _ _ _ => "DoPutPreparedStatementQuery"
  | CallDoPutPreparedStatementUpdate _ _ _ => "DoPutPreparedStatementUpdate"
  end.

(** The error a call returns and the state of the server after it. *)
Definition invoke {S : Type} (srv : Server S) (c : Call) (s : S) : option Error * S :=
  match c with
  | CallGetFlightInfoStatement ctx q d =>
      let '((_, e), s) := GetFlightInfoStatement srv ctx q d s in (e, s)
  | CallDoGetStatement ctx t =>
      let '((_, _, e), s) := DoGetStatement srv ctx t s in (e, s)
  | CallGetFlightInfoPreparedStatement ctx h d =>
      let '((_, e), s) := GetFlightInfoPreparedStatement srv ctx h d s in (e, s)
  | CallDoGetPreparedStatement ctx h =>
      let '((_, _, e), s) := DoGetPreparedStatement srv ctx h s in (e, s)
  | CallGetFlightInfoCatalogs ctx d =>
      let '((_, e), s) := GetFlightInfoCatalogs srv ctx d s in (e, s)
  | CallDoGetCatalogs ctx =>
      let '((_, _, e), s) := DoGetCatalogs srv ctx s in (e, s)
  | CallGetFlightInfoXdbcTypeInfo ctx x d =>
      let '((_, e), s) := GetFlightInfoXdbcTypeInfo srv ctx x d s in (e, s)
  | CallDoGetXdbcTypeInfo ctx x =>
      let '((_, _, e), s) := DoGetXdbcTypeInfo srv ctx x s in (e, s)
  | CallGetFlightInfoSqlInfo ctx i d =>
      let '((_, e), s) := GetFlightInfoSqlInfo srv ctx i d s in (e, s)
  | CallDoGetSqlInfo ctx i =>
      let '((_, _, e), s) := DoGetSqlInfo srv ctx i s in (e, s)
  | CallGetFlightInfoSchemas ctx r d =>
      let '((_, e), s) := GetFlightInfoSchemas srv ctx r d s in (e, s)
  | CallDoGetDBSchemas ctx r =>
      let '((_, _, e), s) := DoGetDBSchemas srv ctx r s in (e, s)
  | CallGetFlightInfoTables ctx r d =>
      let '((_, e), s) := GetFlightInfoTables srv ctx r d s in (e, s)
  | CallDoGetTables ctx r =>
      let '((_, _, e), s) := DoGetTables srv ctx r s in (e, s)
  | CallGetFlightInfoTableTypes ctx d =>
      let '((_, e), s) := GetFlightInfoTableTypes srv ctx d s in (e, s)
  | CallDoGetTableTypes ctx =>
      let '((_, _, e), s) := DoGetTableTypes srv ctx s in (e, s)
  | CallGetFlightInfoPrimaryKeys ctx r d =>
      let '((_, e), s) := GetFlightInfoPrimaryKeys srv ctx r d s in (e, s)
  | CallDoGetPrimaryKeys ctx r =>
      let '((_, _, e), s) := DoGetPrimaryKeys srv ctx r s in (e, s)
  | CallGetFlightInfoExportedKeys ctx r d =>
      let '((_, e), s) := GetFlightInfoExportedKeys srv ctx r d s in (e, s)
  | CallDoGetExportedKeys ctx r =>
      let '((_, _, e), s) := DoGetExportedKeys srv ctx r s in (e, s)
  | CallGetFlightInfoImportedKeys ctx r d =>
      let '((_, e), s) := GetFlightInfoImportedKeys srv ctx r d s in (e, s)
  | CallDoGetImportedKeys ctx r =>
      let '((_, _, e), s) := DoGetImportedKeys srv ctx r s in (e, s)
  | CallGetFlightInfoCrossReference ctx r d =>
      let '((_, e), s) := GetFlightInfoCrossReference srv ctx r d s in (e, s)
  | CallDoGetCrossReference ctx r =>
      let '((_, _, e), s) := DoGetCrossReference srv ctx r s in (e, s)
  | CallDoPutCommandStatementUpdate ctx q =>
      let '((_, e), s) := DoPutCommandStatementUpdate srv ctx q s in (e, s)
  | CallCreatePreparedStatement ctx q =>
      let '((_, e), s) := CreatePreparedStatement srv ctx q s in (e, s)
  | CallClosePreparedStatement ctx h =>
      ClosePreparedStatement srv ctx h s
  | CallDoPutPreparedStatementQuery ctx h rdr w stream =>
      let '((e, _), s) := DoPutPreparedStatementQuery srv ctx h rdr w stream s in (e, s)
  | CallDoPutPreparedStatementUpdate ctx h rdr =>
      let '((_, e), s) := DoPutPreparedStatementUpdate srv ctx h rdr s in (e, s)
  end.

End FlightSql.

(** ** Actions: the prepared-statement protocol *)

(** [flight.Action], [flight.Result] and [flight.ActionType]. *)
Record Action := { act_Type : string; act_Body : bytes }.

Record Result_ := { res_Body : bytes }.

Record ActionType := { at_Type : string }.

(** The protobuf message [pb.ActionCreatePreparedStatementResult]: the
    handle and the two serialized schemas, empty while unset. *)
Record pb_ActionCreatePreparedStatementResult := {
  pb_PreparedStatementHandle : bytes;
  pb_DatasetSchema : bytes;
  pb_ParameterSchema : bytes
}.

(** [flight.FlightService_DoActionServer]: the sends so far, each with the
    result the transport gave, and the results of the coming sends. *)
Record DoActionServer := {
  act_trace : list (Result_ * option Error);
  act_faults : list (option Error)
}.

(** [stream.Send(&ret)] on a [DoAction] stream. *)
Definition act_Send (r : Result_) (st : DoActionServer) : option Error * DoActionServer :=
  match act_faults st with
  | [] => (None, {| act_trace := act_trace st ++ [(r, None)]; act_faults := [] |})
  | res :: rest => (res, {| act_trace := act_trace st ++ [(r, res)]; act_faults := rest |})
  end.

(** The results handed to [Send] on a [DoAction] stream, in order. *)
Definition act_sends (st : DoActionServer) : list Result_ := fst <$> act_trace st.

(** [flight.FlightService_ListActionsServer], in the same way. *)
Record ListActionsServer := {
  la_trace : list (ActionType * option Error);
  la_faults : list (option Error)
}.

(** [stream.Send(&flight.ActionType{Type: a})] on a [ListActions] stream. *)
Definition la_Send (a : ActionType) (st : ListActionsServer) : option Error * ListActionsServer :=
  match la_faults st with
  | [] => (None, {| la_trace := la_trace st ++ [(a, None)]; la_faults := [] |})
  | res :: rest => (res, {| la_trace := la_trace st ++ [(a, res)]; la_faults := rest |})
  end.

(** The collaborators of the action protocol outside this file: the two
    action type constants of the package and the protobuf calls on the
    action messages. *)
Class ActionExternal := {
  CreatePreparedStatementActionType : string;
  ClosePreparedStatementActionType : string;
  (** [anycmd.UnmarshalTo(&request)] for a create request: its query *)
  UnmarshalTo_CreateRequest : Any -> string + string;
  (** [anycmd.UnmarshalTo(&request)] for a close request: its handle *)
  UnmarshalTo_CloseRequest : Any -> string + bytes;
  (** [anycmd.MarshalFrom(&result)] *)
  MarshalFrom_CreateResult : pb_ActionCreatePreparedStatementResult -> string + Any;
  (** [proto.Marshal(&anycmd)] *)
  proto_Marshal_Any : Any -> string + bytes
}.

Section Actions.

Context `{External} `{ActionExternal}.

Set Implicit Arguments.

(** [flightSqlServer]: the wrapper that routes FlightRPC to FlightSQL. *)
Record flightSqlServer (S : Type) := {
  mem : Allocator;
  srv : Server S
}.

Unset Implicit Arguments.

(** [NewFlightServer]. *)
Definition NewFlightServer {S : Type} (srv : Server S) : flightSqlServer S :=
  {| srv := srv; mem := DefaultAllocator |}.

(** [NewFlightServerWithAllocator]; a nil [mem] becomes the default
    allocator. *)
Definition NewFlightServerWithAllocator {S : Type} (srv : Server S) (mem : option Allocator)
    : flightSqlServer S :=
  match mem with
  | None => {| srv := srv; mem := DefaultAllocator |}
  | Some mem => {| srv := srv; mem := mem |}
  end.

(** [ListActions]: the loop over the two action types, which returns at the
    first send that fails. *)
Fixpoint ListActions_loop (actions : list string) (stream : ListActionsServer)
    : option Error * ListActionsServer :=
  match actions with
  | [] => (None, stream)
  | a :: rest =>
      let '(err, stream) := la_Send {| at_Type := a |} stream in
      match err with
      | Some _ => (err, stream)
      | None => ListActions_loop rest stream
      end
  end.

Definition ListActions (stream : ListActionsServer) : option Error * ListActionsServer :=
  ListActions_loop [CreatePreparedStatementActionType; ClosePreparedStatementActionType] stream.

(** [DoAction]: the switch on [cmd.Type]; [ctx] is [stream.Context()]. *)
Definition DoAction {S : Type} (f : flightSqlServer S) (cmd : Action) (ctx : Context)
    (stream : DoActionServer) (s : S) : option Error * DoActionServer * S :=
  if decide (act_Type cmd = CreatePreparedStatementActionType) then
    match proto_Unmarshal (act_Body cmd) with
    | inl msg =>
        (Some (StatusError InvalidArgument ("unable to parse command: " +:+ msg)), stream, s)
    | inr anycmd =>
        match UnmarshalTo_CreateRequest anycmd with
        | inl msg =>
            (Some (StatusError InvalidArgument
                     ("unable to unmarshal google.protobuf.Any: " +:+ msg)), stream, s)
        | inr request =>
            let '((output, err), s) := CreatePreparedStatement (srv f) ctx request s in
            match err with
            | Some _ => (err, stream, s)
            | None =>
                let result :=
                  {| pb_PreparedStatementHandle := Handle output;
                     pb_DatasetSchema :=
                       match DatasetSchema output with
                       | Some sc => SerializeSchema sc (mem f)
                       | None => []
                       end;
                     pb_ParameterSchema :=
                       match ParameterSchema output with
                       | Some sc => SerializeSchema sc (mem f)
                       | None => []
                       end |} in
                match MarshalFrom_CreateResult result with
                | inl msg =>
                    (Some (StatusError Internal
                             ("unable to marshal final response: " +:+ msg)), stream, s)
                | inr anycmd =>
                    match proto_Marshal_Any anycmd with
                    | inl msg =>
                        (Some (StatusError Internal
                                 ("unable to marshal result: " +:+ msg)), stream, s)
                    | inr body =>
                        let '(res, stream) := act_Send {| res_Body := body |} stream in
                        (res, stream, s)
                    end
                end
            end
        end
    end
  else if decide (act_Type cmd = ClosePreparedStatementActionType) then
    match proto_Unmarshal (act_Body cmd) with
    | inl msg =>
        (Some (StatusError InvalidArgument ("unable to parse command: " +:+ msg)), stream, s)
    | inr anycmd =>
        match UnmarshalTo_CloseRequest anycmd with
        | inl msg =>
            (Some (StatusError InvalidArgument
                     ("unable to unmarshal google.protobuf.Any: " +:+ msg)), stream, s)
        | inr request =>
            let '(err, s) := ClosePreparedStatement (srv f) ctx request s in
            match err with
            | Some _ => (err, stream, s)
            | None =>
                let '(res, stream) := act_Send {| res_Body := [] |} stream in
                (res, stream, s)
            end
        end
    end
  else
    (Some (StatusError InvalidArgument "the defined request is invalid."), stream, s).

End Actions.

(** The events a call appends to a [DoGet] stream for one chunk that is
    written and released. *)
Definition chunk_events (c : StreamChunk) : list GetEvent :=
  [EvSetFlightDescriptor (Desc c); EvWrite (Data c) (AppMetadata c) None; EvRelease (Data c)].

(** The records of the successful writes of a trace, and the records it
    releases, both in order. *)
Definition written_ok (t : list GetEvent) : list Record_ :=
  omap (fun e => match e with EvWrite r _ None => Some r | _ => None end) t.

Definition released (t : list GetEvent) : list Record_ :=
  omap (fun e => match e with EvRelease r => Some r | _ => None end) t.

(** The number of reader releases in a [DoPut] trace. *)
Definition reader_releases (t : list PutEvent) : nat :=
  length (List.filter (fun e => match e with EvReaderRelease => true | _ => false end) t).

(** ** A concrete environment and server, used to run the definitions *)

(** A codec whose envelope keeps the bytes and whose first byte selects the
    command; a reader that accepts records of its own schema. *)
Definition demo_UnmarshalNew (a : Any) : string + Message :=
  match any_value a with
  | Byte.x01 :: h => inr (TicketStatementQuery h)
  | Byte.x02 :: _ => inr (CommandStatementQuery "SELECT 1")
  | Byte.x03 :: _ => inr CommandGetCatalogs
  | Byte.x04 :: _ => inr (CommandStatementUpdate "DELETE FROM t")
  | Byte.x05 :: _ => inr (CommandGetSqlInfo [1; 2]%N)
  | Byte.x06 :: _ => inr (CommandGetSqlInfo [1; 99]%N)
  | _ => inl "unknown message type"
  end.

Definition demo_NewRecordReader (sc : Schema) (recs : list Record_)
    : string + RecordReader :=
  if decide (Forall (fun r => rec_schema r = sc) recs) then inr recs
  else inl "arrow/array: mismatch schema".

Definition demo_External : External :=
  {| Context := unit;
     Allocator := unit;
     DefaultAllocator := tt;
     SerializeSchema := fun _ _ => [Byte.xff];
     proto_Unmarshal := fun bs => inr {| type_url := "demo"; any_value := bs |};
     UnmarshalNew := demo_UnmarshalNew;
     proto_Marshal_DoPutUpdateResult :=
       fun n => inr (Byte.x08 :: match Byte.of_N (Z.to_N n) with
                                 | Some b => [b]
                                 | None => []
                                 end);
     NewRecordReader := demo_NewRecordReader |}.

(** A base server with capability 1 registered as the string "v1.0" and
    capability 2 as [true]. *)
Definition demo_BaseServer : @BaseServer demo_External :=
  {| sqlInfoToResult := Some (<[2%N := VBool true]> (<[1%N := VString "v1.0"]> ∅));
     Alloc := None |}.

Definition demo_batch : Record_ :=
  {| rec_schema := SqlInfo_schema; info_name := [7%N];
     value := sqlInfoResultBuilder_Append empty_union (VInt64 42) |}.

Definition demo_error : Error := PlainError "query failed".

Definition demo_transport_error : Error := PlainError "transport is closing".

(** A server that embeds the base server and overrides the statement
    handlers: a ticket with handle [0] yields one chunk carrying an error,
    any other ticket one chunk carrying [demo_batch]; a statement update
    affects 7 records. *)
Definition demo_Server : @Server demo_External (@BaseServer demo_External) :=
  {| GetFlightInfoStatement := BaseServer_GetFlightInfoStatement;
     DoGetStatement := fun _ h b =>
       match h with
       | [Byte.x00] =>
           ((Some SqlInfo_schema,
             Some [ {| Data := demo_batch; Desc := None; AppMetadata := [];
                       Err := Some demo_error |} ], None), b)
       | _ =>
           ((Some SqlInfo_schema,
             Some [ {| Data := demo_batch; Desc := None; AppMetadata := [];
                       Err := None |} ], None), b)
       end;
     GetFlightInfoPreparedStatement := BaseServer_GetFlightInfoPreparedStatement;
     DoGetPreparedStatement := BaseServer_DoGetPreparedStatement;
     GetFlightInfoCatalogs := BaseServer_GetFlightInfoCatalogs;
     DoGetCatalogs := BaseServer_DoGetCatalogs;
     GetFlightInfoXdbcTypeInfo := BaseServer_GetFlightInfoXdbcTypeInfo;
     DoGetXdbcTypeInfo := BaseServer_DoGetXdbcTypeInfo;
     GetFlightInfoSqlInfo := BaseServer_GetFlightInfoSqlInfo;
     DoGetSqlInfo := BaseServer_DoGetSqlInfo;
     GetFlightInfoSchemas := BaseServer_GetFlightInfoSchemas;
     DoGetDBSchemas := BaseServer_DoGetDBSchemas;
     GetFlightInfoTables := BaseServer_GetFlightInfoTables;
     DoGetTables := BaseServer_DoGetTables;
     GetFlightInfoTableTypes := BaseServer_GetFlightInfoTableTypes;
     DoGetTableTypes := BaseServer_DoGetTableTypes;
     GetFlightInfoPrimaryKeys := BaseServer_GetFlightInfoPrimaryKeys;
     DoGetPrimaryKeys := BaseServer_DoGetPrimaryKeys;
     GetFlightInfoExportedKeys := BaseServer_GetFlightInfoExportedKeys;
     DoGetExportedKeys := BaseServer_DoGetExportedKeys;
     GetFlightInfoImportedKeys := BaseServer_GetFlightInfoImportedKeys;
     DoGetImportedKeys := BaseServer_DoGetImportedKeys;
     GetFlightInfoCrossReference := BaseServer_GetFlightInfoCrossReference;
     DoGetCrossReference := BaseServer_DoGetCrossReference;
     DoPutCommandStatementUpdate := fun _ _ b => ((7%Z, None), b);
     CreatePreparedStatement := BaseServer_CreatePreparedStatement;
     ClosePreparedStatement := BaseServer_ClosePreparedStatement;
     DoPutPreparedStatementQuery := BaseServer_DoPutPreparedStatementQuery;
     DoPutPreparedStatementUpdate := BaseServer_DoPutPreparedStatementUpdate |}.

Definition demo_descriptor (cmd : bytes) : FlightDescriptor :=
  {| desc_Type := 2%N; Cmd := cmd; Path := [] |}.

(** A fresh [DoGet] stream whose transport gives [faults] to its writes. *)
Definition fresh_get (faults : list (option Error)) : DoGetServer :=
  {| get_trace := []; get_faults := faults |}.

(** A [DoPut] stream whose first message carried the descriptor [d]. *)
Definition fresh_put (d : option FlightDescriptor) : DoPutServer :=
  {| put_reader := inr {| LatestFlightDescriptor := d; reader_batches := [] |};
     put_trace := []; put_faults := [] |}.

(** A codec for the action messages: the body's first byte tells a create
    request (1) from a close request (2). *)
Definition demo_ActionExternal : ActionExternal :=
  {| CreatePreparedStatementActionType := "CreatePreparedStatement";
     ClosePreparedStatementActionType := "ClosePreparedStatement";
     UnmarshalTo_CreateRequest := fun a =>
       match any_value a with
       | Byte.x01 :: _ => inr "SELECT ?"
       | _ => inl "mismatched message type"
       end;
     UnmarshalTo_CloseRequest := fun a =>
       match any_value a with
       | Byte.x02 :: h => inr h
       | _ => inl "mismatched message type"
       end;
     MarshalFrom_CreateResult := fun r =>
       inr {| type_url := "demo.ActionCreatePreparedStatementResult";
              any_value := pb_PreparedStatementHandle r ++ pb_DatasetSchema r
                           ++ pb_ParameterSchema r |};
     proto_Marshal_Any := fun a => inr (any_value a) |}.

(** A second environment: its codec also decodes a prepared statement
    update (7), a prepared statement query (8), both with the rest of the
    bytes as handle, and a GetTables command (9); it cannot marshal a
    negative record count. *)
Definition demo_prepared_External : External :=
  {| Context := unit;
     Allocator := unit;
     DefaultAllocator := tt;
     SerializeSchema := fun _ _ => [Byte.xff];
     proto_Unmarshal := fun bs => inr {| type_url := "demo"; any_value := bs |};
     UnmarshalNew := fun a =>
       match any_value a with
       | Byte.x07 :: h => inr (CommandPreparedStatementUpdate h)
       | Byte.x08 :: h => inr (CommandPreparedStatementQuery h)
       | Byte.x09 :: _ => inr (CommandGetTables None None None [] false)
       | _ => demo_UnmarshalNew a
       end;
     proto_Marshal_DoPutUpdateResult := fun n =>
       if decide (n < 0)%Z then inl "negative record count"
       else inr (Byte.x08 :: match Byte.of_N (Z.to_N n) with
                             | Some b => [b]
                             | None => []
                             end);
     NewRecordReader := demo_NewRecordReader |}.

(** A server that embeds the base server and overrides the update and the
    prepared statement handlers: a statement update reports -1 records;
    creating yields the handle [0xAB] with a parameter schema and no dataset
    schema; closing succeeds for every handle but the empty one; a prepared
    update affects as many records as batches were uploaded; parameter
    binding writes the handle back as metadata. *)
Definition demo_prepared_Server
    : @Server demo_prepared_External (@BaseServer demo_prepared_External) :=
  {| GetFlightInfoStatement := BaseServer_GetFlightInfoStatement;
     DoGetStatement := BaseServer_DoGetStatement;
     GetFlightInfoPreparedStatement := BaseServer_GetFlightInfoPreparedStatement;
     DoGetPreparedStatement := BaseServer_DoGetPreparedStatement;
     GetFlightInfoCatalogs := BaseServer_GetFlightInfoCatalogs;
     DoGetCatalogs := BaseServer_DoGetCatalogs;
     GetFlightInfoXdbcTypeInfo := BaseServer_GetFlightInfoXdbcTypeInfo;
     DoGetXdbcTypeInfo := BaseServer_DoGetXdbcTypeInfo;
     GetFlightInfoSqlInfo := BaseServer_GetFlightInfoSqlInfo;
     DoGetSqlInfo := BaseServer_DoGetSqlInfo;
     GetFlightInfoSchemas := BaseServer_GetFlightInfoSchemas;
     DoGetDBSchemas := BaseServer_DoGetDBSchemas;
     GetFlightInfoTables := BaseServer_GetFlightInfoTables;
     DoGetTables := BaseServer_DoGetTables;
     GetFlightInfoTableTypes := BaseServer_GetFlightInfoTableTypes;
     DoGetTableTypes := BaseServer_DoGetTableTypes;
     GetFlightInfoPrimaryKeys := BaseServer_GetFlightInfoPrimaryKeys;
     DoGetPrimaryKeys := BaseServer_DoGetPrimaryKeys;
     GetFlightInfoExportedKeys := BaseServer_GetFlightInfoExportedKeys;
     DoGetExportedKeys := BaseServer_DoGetExportedKeys;
     GetFlightInfoImportedKeys := BaseServer_GetFlightInfoImportedKeys;
     DoGetImportedKeys := BaseServer_DoGetImportedKeys;
     GetFlightInfoCrossReference := BaseServer_GetFlightInfoCrossReference;
     DoGetCrossReference := BaseServer_DoGetCrossReference;
     DoPutCommandStatementUpdate := fun _ _ b => (((-1)%Z, None), b);
     CreatePreparedStatement := fun _ _ b =>
       (({| Handle := [Byte.xab]; DatasetSchema := None;
            ParameterSchema := Some SqlInfo_schema |}, None), b);
     ClosePreparedStatement := fun _ h b =>
       match h with
       | [] => (Some (PlainError "no such statement"), b)
       | _ => (None, b)
       end;
     DoPutPreparedStatementQuery := fun _ h _ w stream b => (w h stream, b);
     DoPutPreparedStatementUpdate := fun _ _ rdr b =>
       ((Z.of_nat (length (reader_batches rdr)), None), b) |}.

(** The zero value of the base server in the second environment. *)
Definition demo_prepared_state : @BaseServer demo_prepared_External :=
  {| sqlInfoToResult := None; Alloc := None |}.

(** A [DoPut] stream that uploaded the batches [batches] under the
    descriptor [d]. *)
Definition put_with (d : FlightDescriptor) (batches : list Record_) : DoPutServer :=
  {| put_reader := inr {| LatestFlightDescriptor := Some d; reader_batches := batches |};
     put_trace := []; put_faults := [] |}.

Definition demo_chunk (d : option FlightDescriptor) : StreamChunk :=
  {| Data := demo_batch; Desc := d; AppMetadata := [Byte.x2a]; Err := None |}.

Definition fresh_action : DoActionServer := {| act_trace := []; act_faults := [] |}.

(** * Properties *)

Section Properties.

Context `{External}.

(** ** The capability registry *)

Lemma map_len_0_get (m : SqlInfoResultMap) (id : N) :
  map_len m = 0 -> map_get m id = None.
Proof.
  destruct m as [g|]; simpl; [|done].
  intros Hsz. apply map_size_empty_inv in Hsz. by rewrite Hsz, lookup_empty.
Qed.

(** C6: registering a value outside the six permitted shapes returns the
    error "invalid sql info type '<type>' registered for id: <id>", which
    names the offending type and the id, and leaves the server, hence the
    registry, as it was; this holds on a nil registry too. *)
Theorem RegisterSqlInfo_rejects_other_shapes (b : BaseServer) (id : N) (v : GoValue) :
  permitted v = false ->
  RegisterSqlInfo b id v =
    Returns (Some (PlainError ("invalid sql info type '" +:+ type_name v
                               +:+ "' registered for id: " +:+ pretty id)), b).
Proof.
  destruct v; simpl; intros Hp; try discriminate Hp. reflexivity.
Qed.

(** Registration keeps the registry within the six permitted shapes: a
    registry that holds only permitted values still does after any call of
    [RegisterSqlInfo] that returns. *)
Lemma RegisterSqlInfo_keeps_permitted (b b' : BaseServer) (id : N) (v : GoValue)
    (e : option Error) :
  (forall i w, map_get (sqlInfoToResult b) i = Some w -> permitted w = true) ->
  RegisterSqlInfo b id v = Returns (e, b') ->
  forall i w, map_get (sqlInfoToResult b') i = Some w -> permitted w = true.
Proof.
  intros Hinv Hreg i w.
  destruct (sqlInfoToResult b) as [m|] eqn:Hm.
  - destruct v; simpl in Hreg; rewrite ?Hm in Hreg; injection Hreg as <- <-; simpl;
      try (rewrite lookup_insert; case_decide; [by intros [= <-]|]);
      rewrite ?Hm; apply Hinv.
  - destruct v; simpl in Hreg; rewrite ?Hm in Hreg; try discriminate Hreg.
    injection Hreg as <- <-. rewrite Hm. apply Hinv.
Qed.

(** ** The default handler methods *)

(** Every method of the base server leaves the registry as it found it. *)
Lemma invoke_BaseServer_registry (c : Call) (b : BaseServer) :
  sqlInfoToResult (invoke BaseServer_Server c b).2 = sqlInfoToResult b.
Proof.
  destruct c; simpl; try reflexivity.
  - unfold BaseServer_GetFlightInfoSqlInfo. case_decide; simpl; [done|].
    unfold default_Alloc. by destruct (Alloc b).
  - unfold BaseServer_DoGetSqlInfo.
    assert (Hd : sqlInfoToResult (default_Alloc b) = sqlInfoToResult b)
      by (unfold default_Alloc; by destruct (Alloc b)).
    destruct (populate _ _ _); simpl; [done|].
    destruct (NewRecordReader _ _); simpl; done.
Qed.

(** C10: for a value of a permitted shape, [RegisterSqlInfo] stores the
    value under the id, over any prior value, and returns nil exactly when
    the registry map has been made; on a nil map, as in the zero-value
    [BaseServer], the unguarded store panics; and no method of the base
    server makes the map. *)
Theorem RegisterSqlInfo_needs_initialized_map (b : BaseServer) (id : N) (v : GoValue) :
  permitted v = true ->
  (forall m : gmap N GoValue, sqlInfoToResult b = Some m ->
     RegisterSqlInfo b id v =
       Returns (None, {| sqlInfoToResult := Some (<[id := v]> m); Alloc := Alloc b |})
     /\ (<[id := v]> m) !! id = Some v
     /\ forall id', id' <> id -> (<[id := v]> m) !! id' = m !! id')
  /\ (sqlInfoToResult b = None ->
        RegisterSqlInfo b id v = Panics "assignment to entry in nil map")
  /\ ((exists r, RegisterSqlInfo b id v = Returns r) <-> is_Some (sqlInfoToResult b))
  /\ RegisterSqlInfo zero_BaseServer id v = Panics "assignment to entry in nil map"
  /\ (forall (c : Call) (b0 : BaseServer),
        sqlInfoToResult b0 = None ->
        sqlInfoToResult (invoke BaseServer_Server c b0).2 = None).
Proof.
  intros Hp. split; [|split; [|split; [split|split]]].
  - intros m Hm. split; [|split].
    + destruct v; try discriminate Hp; simpl; by rewrite Hm.
    + apply lookup_insert_eq.
    + intros id' Hne. by apply lookup_insert_ne.
  - intros Hnil. destruct v; try discriminate Hp; simpl; by rewrite Hnil.
  - intros [r Hr]. destruct (sqlInfoToResult b) eqn:Hm; [by eexists|].
    destruct v; try discriminate Hp; simpl in Hr; rewrite Hm in Hr; discriminate Hr.
  - intros [m Hm]. destruct v; try discriminate Hp; simpl; rewrite Hm; by eexists.
  - destruct v; try discriminate Hp; reflexivity.
  - intros c b0 Hnil. by rewrite invoke_BaseServer_registry.
Qed.

(** C8: on the base server every handler method other than
    [GetFlightInfoSqlInfo] and [DoGetSqlInfo] returns the Unimplemented
    status whose message is the method's name followed by
    " not implemented", and leaves the server as it was; through the router,
    [GetFlightInfo] with a GetCatalogs command yields
    "GetFlightInfoCatalogs not implemented". *)
Theorem BaseServer_default_Unimplemented :
  (forall (c : Call) (b : BaseServer),
     call_name c <> "GetFlightInfoSqlInfo" -> call_name c <> "DoGetSqlInfo" ->
     invoke BaseServer_Server c b =
       (Some (StatusError Unimplemented (call_name c +:+ " not implemented")), b))
  /\ (forall (ctx : Context) (request : FlightDescriptor) (b : BaseServer),
        decodes (Cmd request) CommandGetCatalogs ->
        GetFlightInfo BaseServer_Server ctx request b =
          ((None, Some (StatusError Unimplemented "GetFlightInfoCatalogs not implemented")), b)).
Proof.
  split.
  - intros c b Hn1 Hn2. destruct c; simpl in *; try reflexivity; congruence.
  - intros ctx request b (anycmd & Hu & Hn). unfold GetFlightInfo.
    by rewrite Hu, Hn.
Qed.

(** C4: with at least one capability registered, [GetFlightInfoSqlInfo]
    returns, without error, a FlightInfo with a single endpoint whose ticket
    is the descriptor's cmd bytes, with the original descriptor, with both
    totals -1 and with the serialized SqlInfo schema; [GetFlightInfo] gives
    the same for a descriptor that decodes to a GetSqlInfo command. *)
Theorem GetFlightInfoSqlInfo_builds_FlightInfo
    (b : BaseServer) (ctx : Context) (cmd : GetSqlInfo) (desc : FlightDescriptor) :
  (exists id, is_Some (map_get (sqlInfoToResult b) id)) ->
  exists fi,
    BaseServer_GetFlightInfoSqlInfo ctx cmd desc b = ((Some fi, None), default_Alloc b)
    /\ fi_Endpoint fi = [ {| ep_Ticket := Some {| Ticket_bytes := Cmd desc |};
                             ep_Location := [] |} ]
    /\ fi_FlightDescriptor fi = Some desc
    /\ TotalRecords fi = (-1)%Z
    /\ TotalBytes fi = (-1)%Z
    /\ fi_Schema fi = SerializeSchema SqlInfo_schema (the_Alloc b)
    /\ (decodes (Cmd desc) (CommandGetSqlInfo cmd) ->
        GetFlightInfo BaseServer_Server ctx desc b = ((Some fi, None), default_Alloc b)).
Proof.
  intros [id [v Hv]].
  assert (Hlen : map_len (sqlInfoToResult b) <> 0).
  { intros H0. apply (map_len_0_get _ id) in H0. congruence. }
  assert (Ha : the_Alloc (default_Alloc b) = the_Alloc b).
  { unfold the_Alloc, default_Alloc.
    destruct (Alloc b) eqn:E; simpl; by rewrite ?E. }
  eexists. split.
  { unfold BaseServer_GetFlightInfoSqlInfo. rewrite decide_False by done.
    rewrite Ha. reflexivity. }
  do 5 (split; [reflexivity|]).
  intros (anycmd & Hu & Hn). unfold GetFlightInfo. rewrite Hu, Hn. simpl.
  unfold BaseServer_GetFlightInfoSqlInfo. rewrite decide_False by done.
  by rewrite Ha.
Qed.

(** ** The SqlInfo record *)

Lemma default_Alloc_registry (b : BaseServer) :
  sqlInfoToResult (default_Alloc b) = sqlInfoToResult b.
Proof. unfold default_Alloc. by destruct (Alloc b). Qed.

(** Appending to a dense union keeps the slots already filled. *)
Lemma union_slot_Append_keeps (u : DenseUnion) (w : GoValue) (code : Z) (off : nat)
    (v : GoValue) :
  union_slot u code off = Some v ->
  union_slot (sqlInfoResultBuilder_Append u w) code off = Some v.
Proof.
  unfold union_slot.
  destruct w; simpl; repeat case_decide; try done; intros Hs;
    apply fmap_Some in Hs as (x & Hx & ->);
    by erewrite lookup_app_l_Some.
Qed.

Lemma typeIDs_Append_keeps (u : DenseUnion) (w : GoValue) (k : nat) (c : Z) :
  typeIDs u !! k = Some c ->
  typeIDs (sqlInfoResultBuilder_Append u w) !! k = Some c.
Proof. intros Hk. destruct w; simpl; try done; by apply lookup_app_l_Some. Qed.

Lemma offsets_Append_keeps (u : DenseUnion) (w : GoValue) (k off : nat) :
  offsets u !! k = Some off ->
  offsets (sqlInfoResultBuilder_Append u w) !! k = Some off.
Proof. intros Hk. destruct w; simpl; try done; by apply lookup_app_l_Some. Qed.

(** Appending to a dense union keeps the rows already built. *)
Lemma union_row_Append_keeps (u : DenseUnion) (w : GoValue) (k : nat) (v : GoValue) :
  union_row u k = Some v ->
  union_row (sqlInfoResultBuilder_Append u w) k = Some v.
Proof.
  unfold union_row.
  destruct (typeIDs u !! k) as [c|] eqn:Ht; [|done].
  destruct (offsets u !! k) as [off|] eqn:Ho; [|done].
  intros Hs.
  rewrite (typeIDs_Append_keeps _ w _ _ Ht), (offsets_Append_keeps _ w _ _ Ho).
  by apply union_slot_Append_keeps.
Qed.

(** Appending a value of a permitted shape adds one row, which holds the
    value under the type code of its shape. *)
Lemma union_row_Append_new (u : DenseUnion) (w : GoValue) :
  permitted w = true ->
  length (offsets u) = length (typeIDs u) ->
  length (typeIDs (sqlInfoResultBuilder_Append u w)) = S (length (typeIDs u))
  /\ length (offsets (sqlInfoResultBuilder_Append u w)) = S (length (typeIDs u))
  /\ typeIDs (sqlInfoResultBuilder_Append u w) !! length (typeIDs u) = type_code w
  /\ union_row (sqlInfoResultBuilder_Append u w) (length (typeIDs u)) = Some w.
Proof.
  intros Hp Hlen. unfold union_row.
  destruct w; try discriminate Hp; simpl;
    rewrite !length_app; simpl;
    (split; [lia|]); (split; [lia|]);
    rewrite list_lookup_middle by done;
    (split; [done|]);
    rewrite list_lookup_middle by done;
    unfold union_slot; simpl;
    by rewrite list_lookup_middle.
Qed.

(** The loop of [DoGetSqlInfo] on ids that all have a registered value of a
    permitted shape: it runs to the end, appends the ids in order, keeps
    the rows built before, and row by row stores the registered value under
    the type code of its shape. *)
Lemma populate_registered (m : SqlInfoResultMap) (ids : list N) :
  forall bldr : RecordBuilder,
    length (typeIDs (valFieldBldr bldr)) = length (nameFieldBldr bldr) ->
    length (offsets (valFieldBldr bldr)) = length (nameFieldBldr bldr) ->
    (forall id, id ∈ ids -> exists v, map_get m id = Some v /\ permitted v = true) ->
    exists bldr',
      populate m ids bldr = inr bldr'
      /\ nameFieldBldr bldr' = nameFieldBldr bldr ++ ids
      /\ length (typeIDs (valFieldBldr bldr')) = length (nameFieldBldr bldr')
      /\ length (offsets (valFieldBldr bldr')) = length (nameFieldBldr bldr')
      /\ (forall k c, typeIDs (valFieldBldr bldr) !! k = Some c ->
                      typeIDs (valFieldBldr bldr') !! k = Some c)
      /\ (forall k v, union_row (valFieldBldr bldr) k = Some v ->
                      union_row (valFieldBldr bldr') k = Some v)
      /\ (forall j id, ids !! j = Some id ->
            exists v, map_get m id = Some v
              /\ typeIDs (valFieldBldr bldr') !! (length (nameFieldBldr bldr) + j) = type_code v
              /\ union_row (valFieldBldr bldr') (length (nameFieldBldr bldr) + j) = Some v).
Proof.
  induction ids as [|info rest IH]; intros bldr Ht Ho Hreg; simpl.
  - exists bldr. rewrite app_nil_r. repeat split; try done.
  - destruct (Hreg info) as (val & Hval & Hperm); [by left|].
    rewrite Hval.
    destruct (union_row_Append_new (valFieldBldr bldr) val Hperm) as (Lt & Lo & Ct & Rw);
      [congruence|].
    set (bldr1 := {| nameFieldBldr := nameFieldBldr bldr ++ [info];
                     valFieldBldr := sqlInfoResultBuilder_Append (valFieldBldr bldr) val |}).
    destruct (IH bldr1) as (bldr' & Hpop & Hnames & Ht' & Ho' & Kt & Kr & New).
    { simpl. rewrite length_app. simpl. lia. }
    { simpl. rewrite length_app. simpl. lia. }
    { intros id Hid. apply Hreg. by right. }
    exists bldr'. split; [done|]. split.
    { rewrite Hnames. simpl. by rewrite <- app_assoc. }
    split; [done|]. split; [done|]. split.
    { intros k c Hk. apply Kt. simpl. by apply typeIDs_Append_keeps. }
    split.
    { intros k v Hk. apply Kr. simpl. by apply union_row_Append_keeps. }
    intros [|j] id Hj; simpl in Hj.
    + injection Hj as <-. exists val. split; [done|].
      rewrite Nat.add_0_r, <- Ht. split.
      * destruct (type_code val) as [c|] eqn:Hc.
        -- apply Kt. simpl. by rewrite Ct.
        -- destruct val; simpl in Hc; discriminate.
      * by apply Kr.
    + destruct (New j id Hj) as (v & Hv & Hc & Hr).
      simpl in Hc, Hr. rewrite length_app in Hc, Hr. simpl in Hc, Hr.
      exists v. split; [done|].
      replace (length (nameFieldBldr bldr) + S j)
        with (length (nameFieldBldr bldr) + 1 + j) by lia.
      by split.
Qed.

(** C3: when every requested id has a registered value (of one of the
    shapes [RegisterSqlInfo] admits) and the record reader accepts records of
    its own schema, [DoGetSqlInfo] succeeds with the SqlInfo schema and a
    channel that delivers a single chunk, without error, whose record has
    one row per requested id, whose column 0 is the list of ids in request
    order, and whose dense-union column holds in each row the value
    registered for the id of that row under the type code of its shape. *)
Theorem DoGetSqlInfo_registered_ids (b : BaseServer) (ctx : Context) (ids : list N) :
  (forall sc recs, Forall (fun r => rec_schema r = sc) recs ->
                   NewRecordReader sc recs = inr recs) ->
  (forall id, id ∈ ids ->
     exists v, map_get (sqlInfoToResult b) id = Some v /\ permitted v = true) ->
  exists batch,
    BaseServer_DoGetSqlInfo ctx ids b =
      ((Some SqlInfo_schema,
        Some [ {| Data := batch; Desc := None; AppMetadata := []; Err := None |} ],
        None), default_Alloc b)
    /\ NumRows batch = length ids
    /\ info_name batch = ids
    /\ length (typeIDs (value batch)) = length ids
    /\ forall k id, ids !! k = Some id ->
         exists v, map_get (sqlInfoToResult b) id = Some v
           /\ typeIDs (value batch) !! k = type_code v
           /\ union_row (value batch) k = Some v.
Proof.
  intros Hrdr Hreg.
  destruct (populate_registered (sqlInfoToResult b) ids NewRecordBuilder)
    as (bldr & Hpop & Hnames & Ht & Ho & _ & _ & Hrows); [done|done|done|].
  simpl in Hnames, Hrows.
  exists (NewRecord bldr). split; [|split; [|split; [|split]]].
  - unfold BaseServer_DoGetSqlInfo. rewrite default_Alloc_registry, Hpop.
    rewrite Hrdr; [done|]. by repeat constructor.
  - unfold NumRows. simpl. by rewrite Hnames.
  - done.
  - simpl. by rewrite Ht, Hnames.
  - intros k id Hk. simpl. by apply Hrows.
Qed.

(** The loop of [DoGetSqlInfo] stops at the first id without a registered
    value, with the NotFound status that names it. *)
Lemma populate_unregistered (m : SqlInfoResultMap) (pre : list N) (id : N) (post : list N) :
  forall bldr : RecordBuilder,
    (forall i, i ∈ pre -> is_Some (map_get m i)) ->
    map_get m id = None ->
    populate m (pre ++ id :: post) bldr =
      inl (StatusError NotFound ("no information for sql info number " +:+ pretty id)).
Proof.
  induction pre as [|i pre IH]; intros bldr Hpre Hid; simpl.
  - by rewrite Hid.
  - destruct (Hpre i) as [v Hv]; [by left|]. rewrite Hv.
    apply IH; [|done]. intros j Hj. apply Hpre. by right.
Qed.

(** A list with an unregistered id splits at its first unregistered id. *)
Lemma first_unregistered (m : SqlInfoResultMap) (ids : list N) :
  (exists id, id ∈ ids /\ map_get m id = None) ->
  exists pre id post,
    ids = pre ++ id :: post
    /\ (forall i, i ∈ pre -> is_Some (map_get m i))
    /\ map_get m id = None.
Proof.
  induction ids as [|i ids IH]; intros (id & Hin & Hid).
  - by apply elem_of_nil in Hin.
  - destruct (map_get m i) as [v|] eqn:Hi.
    + destruct IH as (pre & id' & post & -> & Hpre & Hid').
      { exists id. split; [|done]. apply elem_of_cons in Hin as [->|Hin]; [congruence|done]. }
      exists (i :: pre), id', post. split; [done|]. split; [|done].
      intros j Hj. apply elem_of_cons in Hj as [->|Hj]; [by eexists|by apply Hpre].
    + exists [], i, ids. split; [done|]. split; [|done].
      intros j Hj. by apply elem_of_nil in Hj.
Qed.

(** C5: when some requested id has no registered value, [DoGetSqlInfo]
    returns the NotFound status "no information for sql info number <id>"
    for the first such id of the request, with a nil schema and a nil
    channel: no stream of chunks is produced. *)
Theorem DoGetSqlInfo_unregistered_id (b : BaseServer) (ctx : Context) (ids : list N) :
  (exists id, id ∈ ids /\ map_get (sqlInfoToResult b) id = None) ->
  exists pre id post,
    ids = pre ++ id :: post
    /\ (forall i, i ∈ pre -> is_Some (map_get (sqlInfoToResult b) i))
    /\ map_get (sqlInfoToResult b) id = None
    /\ BaseServer_DoGetSqlInfo ctx ids b =
         ((None, None,
           Some (StatusError NotFound
                   ("no information for sql info number " +:+ pretty id))),
          default_Alloc b).
Proof.
  intros Hex.
  destruct (first_unregistered _ _ Hex) as (pre & id & post & -> & Hpre & Hid).
  exists pre, id, post. repeat split; try done.
  unfold BaseServer_DoGetSqlInfo. rewrite default_Alloc_registry.
  by rewrite (populate_unregistered _ pre id post _ Hpre Hid).
Qed.

(** ** The verb router *)

Section RouterProperties.

Context {S : Type} (srv : Server S).

(** C7: [GetFlightInfo] passes a CommandStatementQuery to the
    [GetFlightInfoStatement] handler and [DoGet] passes a
    TicketStatementQuery to the [DoGetStatement] handler, whose result it
    then serves; each verb answers the other's statement command, and any
    decoded command outside the cases of its type switch, with
    InvalidArgument "requested command is invalid", calling no handler. *)
Theorem verbs_dispatch_statement_commands (ctx : Context) (s : S) :
  (forall request q,
     decodes (Cmd request) (CommandStatementQuery q) ->
     GetFlightInfo srv ctx request s = GetFlightInfoStatement srv ctx q request s)
  /\ (forall ticket stream h,
        decodes (Ticket_bytes ticket) (TicketStatementQuery h) ->
        DoGet srv ticket ctx stream s = DoGet_serve (DoGetStatement srv ctx h s) stream)
  /\ (forall request h,
        decodes (Cmd request) (TicketStatementQuery h) ->
        GetFlightInfo srv ctx request s =
          ((None, Some (StatusError InvalidArgument "requested command is invalid")), s))
  /\ (forall ticket stream q,
        decodes (Ticket_bytes ticket) (CommandStatementQuery q) ->
        DoGet srv ticket ctx stream s =
          (Returns (Some (StatusError InvalidArgument "requested command is invalid")),
           stream, s))
  /\ (forall request cmd,
        decodes (Cmd request) cmd -> GetFlightInfo_cases cmd = false ->
        GetFlightInfo srv ctx request s =
          ((None, Some (StatusError InvalidArgument "requested command is invalid")), s))
  /\ (forall ticket stream cmd,
        decodes (Ticket_bytes ticket) cmd -> DoGet_cases cmd = false ->
        DoGet srv ticket ctx stream s =
          (Returns (Some (StatusError InvalidArgument "requested command is invalid")),
           stream, s)).
Proof.
  split; [|split; [|split; [|split; [|split]]]].
  - intros request q (a & Hu & Hn). unfold GetFlightInfo. by rewrite Hu, Hn.
  - intros ticket stream h (a & Hu & Hn). unfold DoGet. by rewrite Hu, Hn.
  - intros request h (a & Hu & Hn). unfold GetFlightInfo. by rewrite Hu, Hn.
  - intros ticket stream q (a & Hu & Hn). unfold DoGet. by rewrite Hu, Hn.
  - intros request cmd (a & Hu & Hn) Hc. unfold GetFlightInfo. rewrite Hu, Hn.
    destruct cmd; simpl in Hc; try discriminate Hc; reflexivity.
  - intros ticket stream cmd (a & Hu & Hn) Hc. unfold DoGet. rewrite Hu, Hn.
    destruct cmd; simpl in Hc; try discriminate Hc; reflexivity.
Qed.

Lemma put_sends_Send (out : PutResult) (stream : DoPutServer) :
  put_sends (Send out stream).2 = put_sends stream ++ [out].
Proof.
  unfold Send, put_sends.
  destruct (put_faults stream); simpl; by rewrite omap_app.
Qed.

Lemma put_sends_ReaderRelease (stream : DoPutServer) :
  put_sends (ReaderRelease stream) = put_sends stream.
Proof. unfold ReaderRelease, put_sends. simpl. by rewrite omap_app, app_nil_r. Qed.

(** C9: on a [DoPut] whose descriptor decodes to a StatementUpdate, the
    router calls the statement-update handler. When the handler returns the
    count [c] without error (and [c] marshals to [md]), the router sends
    exactly one PutResult, whose appMetadata is [md], and returns the
    result of that send; when the handler returns an error, the router
    returns that error and sends nothing. *)
Theorem DoPut_statement_update (ctx : Context) (stream : DoPutServer) (s : S)
    (rdr : MessageReader) (request : FlightDescriptor) (q : StatementUpdate) :
  put_reader stream = inr rdr ->
  LatestFlightDescriptor rdr = Some request ->
  decodes (Cmd request) (CommandStatementUpdate q) ->
  (forall c s' md,
     DoPutCommandStatementUpdate srv ctx q s = ((c, None), s') ->
     proto_Marshal_DoPutUpdateResult c = inr md ->
     let out := {| put_AppMetadata := md |} in
     DoPut srv ctx stream s =
       (Returns (Send out stream).1, ReaderRelease (Send out stream).2, s')
     /\ put_sends (ReaderRelease (Send out stream).2) = put_sends stream ++ [out])
  /\ (forall c e s',
        DoPutCommandStatementUpdate srv ctx q s = ((c, Some e), s') ->
        DoPut srv ctx stream s = (Returns (Some e), ReaderRelease stream, s')
        /\ put_sends (ReaderRelease stream) = put_sends stream).
Proof.
  intros Hrdr Hdesc (a & Hu & Hn). split.
  - intros c s' md Hh Hm out. split.
    + unfold DoPut. rewrite Hrdr, Hdesc, Hu, Hn, Hh, Hm.
      fold out. by destruct (Send out stream).
    + by rewrite put_sends_ReaderRelease, put_sends_Send.
  - intros c e s' Hh. split.
    + unfold DoPut. by rewrite Hrdr, Hdesc, Hu, Hn, Hh.
    + apply put_sends_ReaderRelease.
Qed.

End RouterProperties.

(** ** The streaming loop *)

(** Every error the streaming loop returns is the result of a write: the
    error of a chunk never leaves the loop. *)
Lemma DoGet_loop_error_is_write_error (cc : list StreamChunk) :
  forall (stream st' : DoGetServer) (e : Error),
    DoGet_loop None cc stream = (Some e, st') ->
    exists rec meta, EvWrite rec meta (Some e) ∈ get_trace st'.
Proof.
  induction cc as [|chunk rest IH]; intros stream st' e; simpl.
  - intros Heq. discriminate Heq.
  - destruct (Err chunk); [intros Heq; discriminate Heq|].
    unfold WriteWithAppMetadata, SetFlightDescriptor, get_log. simpl.
    destruct (get_faults stream) as [|[e'|] faults]; simpl.
    + apply IH.
    + intros [= -> <-]. simpl. exists (Data chunk), (AppMetadata chunk).
      apply elem_of_app. right. by left.
    + apply IH.
Qed.

End Properties.

(** * Runs on the concrete environment *)

(** C1: at a chunk whose error is set the streaming loop sends nothing more
    but returns the current value of the named result, which is nil, not
    the chunk's error; so [DoGet] on a handler whose channel delivers one
    chunk carrying the error "query failed" returns nil. *)
Theorem DoGet_error_chunk_returns_nil :
  (forall rec desc meta e rest stream,
     DoGet_loop None
       ({| Data := rec; Desc := desc; AppMetadata := meta; Err := Some e |} :: rest)
       stream = (None, stream))
  /\ @DoGet demo_External _ demo_Server {| Ticket_bytes := [Byte.x01; Byte.x00] |} tt
       (fresh_get []) demo_BaseServer
     = (Returns None, {| get_trace := [EvClose]; get_faults := [] |}, demo_BaseServer).
Proof. split; [reflexivity | vm_compute; reflexivity]. Qed.

(** C2: a chunk whose write fails is not released: the loop returns the
    write's error right after the write. On the concrete server, the run
    with a failing write and the run with an error chunk end with no release
    of the chunk's record, the run with a successful write with one. *)
Theorem DoGet_write_error_skips_release :
  (forall rec desc meta e faults rest trace,
     DoGet_loop None
       ({| Data := rec; Desc := desc; AppMetadata := meta; Err := None |} :: rest)
       {| get_trace := trace; get_faults := Some e :: faults |}
     = (Some e,
        {| get_trace := (trace ++ [EvSetFlightDescriptor desc])
                        ++ [EvWrite rec meta (Some e)];
           get_faults := faults |}))
  /\ (let run := @DoGet demo_External _ demo_Server
                   {| Ticket_bytes := [Byte.x01; Byte.x01] |} tt
                   (fresh_get [Some demo_transport_error]) demo_BaseServer in
      run.1.1 = Returns (Some demo_transport_error)
      /\ writes_of (get_trace run.1.2) = [demo_batch]
      /\ releases_of demo_batch (get_trace run.1.2) = 0)
  /\ (let run := @DoGet demo_External _ demo_Server
                   {| Ticket_bytes := [Byte.x01; Byte.x00] |} tt
                   (fresh_get []) demo_BaseServer in
      releases_of demo_batch (get_trace run.1.2) = 0)
  /\ (let run := @DoGet demo_External _ demo_Server
                   {| Ticket_bytes := [Byte.x01; Byte.x01] |} tt
                   (fresh_get []) demo_BaseServer in
      run.1.1 = Returns None
      /\ releases_of demo_batch (get_trace run.1.2) = 1).
Proof.
  split; [reflexivity|]. split; [|split]; vm_compute; repeat split.
Qed.

(** The capability query of ids 1 and 2 on the registry {1: "v1.0", 2: true}. *)
Lemma DoGetSqlInfo_registered_ids_witness :
  exists batch,
    @BaseServer_DoGetSqlInfo demo_External tt [1; 2]%N demo_BaseServer =
      ((Some SqlInfo_schema,
        Some [ {| Data := batch; Desc := None; AppMetadata := []; Err := None |} ],
        None), default_Alloc demo_BaseServer)
    /\ NumRows batch = 2
    /\ info_name batch = [1; 2]%N
    /\ length (typeIDs (value batch)) = 2
    /\ forall k id, [1; 2]%N !! k = Some id ->
         exists v, map_get (sqlInfoToResult demo_BaseServer) id = Some v
           /\ typeIDs (value batch) !! k = type_code v
           /\ union_row (value batch) k = Some v.
Proof.
  apply (@DoGetSqlInfo_registered_ids demo_External demo_BaseServer tt [1; 2]%N).
  - intros sc recs Hall. simpl. unfold demo_NewRecordReader.
    destruct (decide (Forall (fun r => rec_schema r = sc) recs)) as [_|Hn];
      [reflexivity | destruct (Hn Hall)].
  - intros id Hid.
    apply elem_of_cons in Hid as [->|Hid]; [exists (VString "v1.0"); split; reflexivity|].
    apply elem_of_cons in Hid as [->|Hid]; [exists (VBool true); split; reflexivity|].
    destruct (proj1 (elem_of_nil id) Hid).
Defined.

(** The FlightInfo for a GetSqlInfo descriptor on the same registry. *)
Lemma GetFlightInfoSqlInfo_builds_FlightInfo_witness :
  (exists id, is_Some (map_get (sqlInfoToResult demo_BaseServer) id))
  /\ exists fi,
       @BaseServer_GetFlightInfoSqlInfo demo_External tt [1; 2]%N
         (demo_descriptor [Byte.x05]) demo_BaseServer
         = ((Some fi, None), default_Alloc demo_BaseServer)
       /\ fi_Endpoint fi = [ {| ep_Ticket := Some {| Ticket_bytes := [Byte.x05] |};
                                ep_Location := [] |} ]
       /\ fi_FlightDescriptor fi = Some (demo_descriptor [Byte.x05])
       /\ TotalRecords fi = (-1)%Z
       /\ TotalBytes fi = (-1)%Z
       /\ fi_Schema fi = [Byte.xff]
       /\ (@decodes demo_External [Byte.x05] (CommandGetSqlInfo [1; 2]%N) ->
           @GetFlightInfo demo_External _ BaseServer_Server tt
             (demo_descriptor [Byte.x05]) demo_BaseServer
           = ((Some fi, None), default_Alloc demo_BaseServer)).
Proof.
  assert (Hreg : exists id, is_Some (map_get (sqlInfoToResult demo_BaseServer) id)).
  { exists 1%N, (VString "v1.0"). reflexivity. }
  split; [exact Hreg|].
  exact (@GetFlightInfoSqlInfo_builds_FlightInfo demo_External demo_BaseServer tt
           [1; 2]%N (demo_descriptor [Byte.x05]) Hreg).
Defined.

(** The capability query of ids 1 and 99, of which 99 is not registered. *)
Lemma DoGetSqlInfo_unregistered_id_witness :
  (exists id, id ∈ [1; 99]%N /\ map_get (sqlInfoToResult demo_BaseServer) id = None)
  /\ exists pre id post,
       [1; 99]%N = pre ++ id :: post
       /\ (forall i, i ∈ pre -> is_Some (map_get (sqlInfoToResult demo_BaseServer) i))
       /\ map_get (sqlInfoToResult demo_BaseServer) id = None
       /\ @BaseServer_DoGetSqlInfo demo_External tt [1; 99]%N demo_BaseServer =
            ((None, None,
              Some (StatusError NotFound
                      ("no information for sql info number " +:+ pretty id))),
             default_Alloc demo_BaseServer).
Proof.
  assert (Hex : exists id, id ∈ [1; 99]%N
                           /\ map_get (sqlInfoToResult demo_BaseServer) id = None).
  { exists 99%N. split; [|reflexivity]. apply elem_of_cons. right. apply elem_of_cons. by left. }
  split; [exact Hex|].
  exact (@DoGetSqlInfo_unregistered_id demo_External demo_BaseServer tt [1; 99]%N Hex).
Defined.

(** Registering a float64 under id 3. *)
Lemma RegisterSqlInfo_rejects_other_shapes_witness :
  permitted (VOther "float64") = false
  /\ @RegisterSqlInfo demo_External demo_BaseServer 3%N (VOther "float64") =
       Returns (Some (PlainError "invalid sql info type 'float64' registered for id: 3"),
                demo_BaseServer).
Proof.
  split; [reflexivity|].
  exact (@RegisterSqlInfo_rejects_other_shapes demo_External demo_BaseServer 3%N
           (VOther "float64") eq_refl).
Defined.

(** A statement ticket given to [DoGet] and, as a descriptor command, to
    [GetFlightInfo]. *)
Lemma verbs_dispatch_statement_commands_witness :
  @decodes demo_External [Byte.x01; Byte.x00] (TicketStatementQuery [Byte.x00])
  /\ @DoGet demo_External _ demo_Server {| Ticket_bytes := [Byte.x01; Byte.x00] |} tt
       (fresh_get []) demo_BaseServer
     = DoGet_serve (DoGetStatement demo_Server tt [Byte.x00] demo_BaseServer) (fresh_get [])
  /\ @decodes demo_External [Byte.x01; Byte.x00] (TicketStatementQuery [Byte.x00])
  /\ @GetFlightInfo demo_External _ demo_Server tt (demo_descriptor [Byte.x01; Byte.x00])
       demo_BaseServer
     = ((None, Some (StatusError InvalidArgument "requested command is invalid")),
        demo_BaseServer).
Proof.
  assert (Hd : @decodes demo_External [Byte.x01; Byte.x00] (TicketStatementQuery [Byte.x00])).
  { eexists. split; reflexivity. }
  pose proof (@verbs_dispatch_statement_commands demo_External _ demo_Server tt
                demo_BaseServer) as (_ & Hget & Hinfo & _).
  split; [exact Hd|]. split.
  - exact (Hget {| Ticket_bytes := [Byte.x01; Byte.x00] |} (fresh_get []) [Byte.x00] Hd).
  - split; [exact Hd|].
    exact (Hinfo (demo_descriptor [Byte.x01; Byte.x00]) [Byte.x00] Hd).
Defined.

(** [DoGetTables] on the base server, and [GetFlightInfo] with GetCatalogs. *)
Lemma BaseServer_default_Unimplemented_witness :
  call_name (@CallDoGetTables demo_External tt
               {| tables_GetCatalog := None; tables_GetDBSchemaFilterPattern := None;
                  GetTableNameFilterPattern := None; GetTableTypes := [];
                  GetIncludeSchema := false |}) <> "GetFlightInfoSqlInfo"
  /\ @invoke demo_External _ BaseServer_Server
       (@CallDoGetTables demo_External tt
          {| tables_GetCatalog := None; tables_GetDBSchemaFilterPattern := None;
             GetTableNameFilterPattern := None; GetTableTypes := [];
             GetIncludeSchema := false |}) demo_BaseServer
     = (Some (StatusError Unimplemented "DoGetTables not implemented"), demo_BaseServer)
  /\ @decodes demo_External [Byte.x03] CommandGetCatalogs
  /\ @GetFlightInfo demo_External _ BaseServer_Server tt (demo_descriptor [Byte.x03])
       demo_BaseServer
     = ((None, Some (StatusError Unimplemented "GetFlightInfoCatalogs not implemented")),
        demo_BaseServer).
Proof.
  assert (Hd : @decodes demo_External [Byte.x03] CommandGetCatalogs).
  { eexists. split; reflexivity. }
  pose proof (@BaseServer_default_Unimplemented demo_External) as (Hcall & Hroute).
  split; [discriminate|]. split.
  - apply (Hcall (@CallDoGetTables demo_External tt _) demo_BaseServer); discriminate.
  - split; [exact Hd|].
    exact (Hroute tt (demo_descriptor [Byte.x03]) demo_BaseServer Hd).
Defined.

(** The update "DELETE FROM t" with a handler that reports 7 records. *)
Lemma DoPut_statement_update_witness :
  @decodes demo_External [Byte.x04] (CommandStatementUpdate "DELETE FROM t")
  /\ @DoPut demo_External _ demo_Server tt
       (fresh_put (Some (demo_descriptor [Byte.x04]))) demo_BaseServer
     = (Returns None,
        {| put_reader := inr {| LatestFlightDescriptor := Some (demo_descriptor [Byte.x04]);
                                reader_batches := [] |};
           put_trace := [EvSend {| put_AppMetadata := [Byte.x08; Byte.x07] |} None;
                         EvReaderRelease];
           put_faults := [] |},
        demo_BaseServer)
  /\ put_sends (ReaderRelease
                  (Send {| put_AppMetadata := [Byte.x08; Byte.x07] |}
                        (fresh_put (Some (demo_descriptor [Byte.x04])))).2)
     = [ {| put_AppMetadata := [Byte.x08; Byte.x07] |} ].
Proof.
  assert (Hd : @decodes demo_External [Byte.x04] (CommandStatementUpdate "DELETE FROM t")).
  { eexists. split; reflexivity. }
  split; [exact Hd|].
  exact (proj1 (@DoPut_statement_update demo_External _ demo_Server tt
                  (fresh_put (Some (demo_descriptor [Byte.x04]))) demo_BaseServer
                  {| LatestFlightDescriptor := Some (demo_descriptor [Byte.x04]);
                     reader_batches := [] |}
                  (demo_descriptor [Byte.x04]) "DELETE FROM t" eq_refl eq_refl Hd)
           7%Z demo_BaseServer [Byte.x08; Byte.x07] eq_refl eq_refl).
Defined.

(** Overwriting capability 1 on a made registry, and on the zero value. *)
Lemma RegisterSqlInfo_needs_initialized_map_witness :
  permitted (VString "v2.0") = true
  /\ @RegisterSqlInfo demo_External demo_BaseServer 1%N (VString "v2.0") =
       Returns (None,
                {| sqlInfoToResult :=
                     Some (<[1%N := VString "v2.0"]>
                             (<[2%N := VBool true]> (<[1%N := VString "v1.0"]> ∅)));
                   Alloc := None |})
  /\ @RegisterSqlInfo demo_External zero_BaseServer 1%N (VString "v2.0") =
       Panics "assignment to entry in nil map".
Proof.
  pose proof (@RegisterSqlInfo_needs_initialized_map demo_External demo_BaseServer 1%N
                (VString "v2.0") eq_refl) as (Hsome & _ & _ & Hzero & _).
  split; [reflexivity|]. split.
  - exact (proj1 (Hsome _ eq_refl)).
  - exact Hzero.
Defined.

(** * Further properties of the router and of the streaming loop *)

Section RouterCoverage.

Context `{External} {S : Type} (srv : Server S).

(** X1: a payload that the envelope codec cannot decode never reaches a
    handler, whichever verb carries it: [GetFlightInfo], [DoGet] and [DoPut]
    all return an InvalidArgument status, leave the server state as it was
    and send nothing ([DoPut] only releases its reader). *)
Theorem undecodable_payload_reaches_no_handler (bs : bytes) :
  (forall cmd, ~ decodes bs cmd) ->
  (forall ctx request s,
     Cmd request = bs ->
     exists msg, GetFlightInfo srv ctx request s =
                   ((None, Some (StatusError InvalidArgument msg)), s))
  /\ (forall ticket ctx stream s,
        Ticket_bytes ticket = bs ->
        exists msg, DoGet srv ticket ctx stream s =
                      (Returns (Some (StatusError InvalidArgument msg)), stream, s))
  /\ (forall ctx stream s rdr request,
        put_reader stream = inr rdr ->
        LatestFlightDescriptor rdr = Some request ->
        Cmd request = bs ->
        exists msg, DoPut srv ctx stream s =
                      (Returns (Some (StatusError InvalidArgument msg)),
                       ReaderRelease stream, s)).
Proof.
  intros Hno.
  assert (Hcases : (exists msg, proto_Unmarshal bs = inl msg)
                   \/ (exists a msg, proto_Unmarshal bs = inr a /\ UnmarshalNew a = inl msg)).
  { destruct (proto_Unmarshal bs) as [msg|a] eqn:Hu; [left; by eexists|].
    destruct (UnmarshalNew a) as [msg|cmd] eqn:Hn; [right; by eexists _, _|].
    destruct (Hno cmd). by exists a. }
  split; [|split].
  - intros ctx request s <-. unfold GetFlightInfo.
    destruct Hcases as [[msg Hu]|(a & msg & Hu & Hn)]; rewrite Hu, ?Hn; by eexists.
  - intros ticket ctx stream s <-. unfold DoGet.
    destruct Hcases as [[msg Hu]|(a & msg & Hu & Hn)]; rewrite Hu, ?Hn; by eexists.
  - intros ctx stream s rdr request Hrdr Hdesc <-. unfold DoPut. rewrite Hrdr, Hdesc.
    destruct Hcases as [[msg Hu]|(a & msg & Hu & Hn)]; rewrite Hu, ?Hn; by eexists.
Qed.

(** X2: [DoPut] answers every decoded command other than a statement
    update, a prepared statement query and a prepared statement update with
    InvalidArgument "the defined request is invalid": it calls no handler,
    sends no reply and releases its reader. *)
Theorem DoPut_rejects_other_commands (ctx : Context) (stream : DoPutServer) (s : S)
    (rdr : MessageReader) (request : FlightDescriptor) (cmd : Message) :
  put_reader stream = inr rdr ->
  LatestFlightDescriptor rdr = Some request ->
  decodes (Cmd request) cmd ->
  match cmd with
  | CommandStatementUpdate _ | CommandPreparedStatementQuery _
  | CommandPreparedStatementUpdate _ => False
  | _ => True
  end ->
  DoPut srv ctx stream s =
    (Returns (Some (StatusError InvalidArgument "the defined request is invalid")),
     ReaderRelease stream, s)
  /\ put_sends (ReaderRelease stream) = put_sends stream.
Proof.
  intros Hrdr Hdesc (a & Hu & Hn) Hother. split.
  - unfold DoPut. rewrite Hrdr, Hdesc, Hu, Hn.
    destruct cmd; try reflexivity; destruct Hother.
  - unfold ReaderRelease, put_sends. simpl. by rewrite omap_app, app_nil_r.
Qed.

(** X3: [DoPut] releases its reader on every exit once the reader is made,
    as the last thing it does to the stream, also when a handler fails, when
    marshalling fails and when the descriptor is missing; when the reader
    cannot be made it returns InvalidArgument "failed to read input
    stream: ..." with the stream and the server untouched. *)
Theorem DoPut_releases_reader_last (ctx : Context) (stream : DoPutServer) (s : S) :
  (forall rdr, put_reader stream = inr rdr ->
     exists st, (DoPut srv ctx stream s).1.2 = ReaderRelease st)
  /\ (forall msg, put_reader stream = inl msg ->
        DoPut srv ctx stream s =
          (Returns (Some (StatusError InvalidArgument
                            ("failed to read input stream: " +:+ msg))), stream, s)).
Proof.
  split.
  - intros rdr Hrdr. unfold DoPut. rewrite Hrdr.
    destruct (LatestFlightDescriptor rdr) as [request|]; [|by eexists].
    destruct (proto_Unmarshal (Cmd request)) as [msg|a]; [by eexists|].
    destruct (UnmarshalNew a) as [msg|cmd]; [by eexists|].
    destruct cmd; try (by eexists).
    + destruct (DoPutPreparedStatementQuery srv ctx _ rdr WriteMetadata stream s)
        as [[err st] s']. by eexists.
    + destruct (DoPutCommandStatementUpdate srv ctx _ s) as [[c [e|]] s']; [by eexists|].
      destruct (proto_Marshal_DoPutUpdateResult c) as [msg|md]; [by eexists|].
      destruct (Send _ stream). by eexists.
    + destruct (DoPutPreparedStatementUpdate srv ctx _ rdr s) as [[c [e|]] s']; [by eexists|].
      destruct (proto_Marshal_DoPutUpdateResult c) as [msg|md]; [by eexists|].
      destruct (Send _ stream). by eexists.
  - intros msg Hrdr. unfold DoPut. by rewrite Hrdr.
Qed.

(** X4: on a [DoPut] whose descriptor decodes to a prepared statement
    update the router gives the handler the reader of the stream; on
    success with count [c] it sends exactly one PutResult, whose appMetadata
    is the marshalled count, and returns the result of the send; on a
    handler error it returns that error and sends nothing. *)
Theorem DoPut_prepared_statement_update (ctx : Context) (stream : DoPutServer) (s : S)
    (rdr : MessageReader) (request : FlightDescriptor) (h : PreparedStatementUpdate) :
  put_reader stream = inr rdr ->
  LatestFlightDescriptor rdr = Some request ->
  decodes (Cmd request) (CommandPreparedStatementUpdate h) ->
  (forall c s' md,
     DoPutPreparedStatementUpdate srv ctx h rdr s = ((c, None), s') ->
     proto_Marshal_DoPutUpdateResult c = inr md ->
     let out := {| put_AppMetadata := md |} in
     DoPut srv ctx stream s =
       (Returns (Send out stream).1, ReaderRelease (Send out stream).2, s')
     /\ put_sends (ReaderRelease (Send out stream).2) = put_sends stream ++ [out])
  /\ (forall c e s',
        DoPutPreparedStatementUpdate srv ctx h rdr s = ((c, Some e), s') ->
        DoPut srv ctx stream s = (Returns (Some e), ReaderRelease stream, s')
        /\ put_sends (ReaderRelease stream) = put_sends stream).
Proof.
  intros Hrdr Hdesc (a & Hu & Hn).
  assert (Hrel : forall st, put_sends (ReaderRelease st) = put_sends st).
  { intros st. unfold ReaderRelease, put_sends. simpl. by rewrite omap_app, app_nil_r. }
  split.
  - intros c s' md Hh Hm out. split.
    + unfold DoPut. rewrite Hrdr, Hdesc, Hu, Hn, Hh, Hm.
      fold out. by destruct (Send out stream).
    + rewrite Hrel. unfold Send, put_sends.
      destruct (put_faults stream); simpl; by rewrite omap_app.
  - intros c e s' Hh. split; [|apply Hrel].
    unfold DoPut. by rewrite Hrdr, Hdesc, Hu, Hn, Hh.
Qed.

(** X5: when the count returned by an update handler cannot be marshalled,
    [DoPut] returns the Internal status "failed to marshal PutResult: ..."
    and sends no reply, although the update has been executed (the state is
    the handler's); this holds for both update commands. *)
Theorem DoPut_marshal_failure_sends_nothing (ctx : Context) (stream : DoPutServer) (s : S)
    (rdr : MessageReader) (request : FlightDescriptor) (c : Z) (s' : S) (msg : string) :
  put_reader stream = inr rdr ->
  LatestFlightDescriptor rdr = Some request ->
  proto_Marshal_DoPutUpdateResult c = inl msg ->
  (forall q,
     decodes (Cmd request) (CommandStatementUpdate q) ->
     DoPutCommandStatementUpdate srv ctx q s = ((c, None), s') ->
     DoPut srv ctx stream s =
       (Returns (Some (StatusError Internal ("failed to marshal PutResult: " +:+ msg))),
        ReaderRelease stream, s'))
  /\ (forall h,
        decodes (Cmd request) (CommandPreparedStatementUpdate h) ->
        DoPutPreparedStatementUpdate srv ctx h rdr s = ((c, None), s') ->
        DoPut srv ctx stream s =
          (Returns (Some (StatusError Internal ("failed to marshal PutResult: " +:+ msg))),
           ReaderRelease stream, s')).
Proof.
  intros Hrdr Hdesc Hm. split.
  - intros q (a & Hu & Hn) Hh. unfold DoPut. by rewrite Hrdr, Hdesc, Hu, Hn, Hh, Hm.
  - intros h (a & Hu & Hn) Hh. unfold DoPut. by rewrite Hrdr, Hdesc, Hu, Hn, Hh, Hm.
Qed.

(** X6: on a [DoPut] whose descriptor decodes to a prepared statement
    query the router hands the reader and a metadata writer to the
    parameter-binding handler and returns the handler's error as it is; the
    router itself sends nothing, and each write to the metadata writer sends
    one PutResult carrying the written bytes. *)
Theorem DoPut_prepared_statement_query (ctx : Context) (stream : DoPutServer) (s : S)
    (rdr : MessageReader) (request : FlightDescriptor) (h : PreparedStatementQuery) :
  put_reader stream = inr rdr ->
  LatestFlightDescriptor rdr = Some request ->
  decodes (Cmd request) (CommandPreparedStatementQuery h) ->
  (forall err st' s',
     DoPutPreparedStatementQuery srv ctx h rdr WriteMetadata stream s = ((err, st'), s') ->
     DoPut srv ctx stream s = (Returns err, ReaderRelease st', s')
     /\ put_sends (ReaderRelease st') = put_sends st')
  /\ (forall md st,
        put_sends (WriteMetadata md st).2 = put_sends st ++ [ {| put_AppMetadata := md |} ]).
Proof.
  intros Hrdr Hdesc (a & Hu & Hn). split.
  - intros err st' s' Hh. split.
    + unfold DoPut. by rewrite Hrdr, Hdesc, Hu, Hn, Hh.
    + unfold ReaderRelease, put_sends. simpl. by rewrite omap_app, app_nil_r.
  - intros md st. unfold WriteMetadata, Send, put_sends.
    destruct (put_faults st); simpl; by rewrite omap_app.
Qed.

End RouterCoverage.

Section LoopCoverage.

Context `{External}.

(** X7: when no chunk carries an error and the transport fails no write,
    the streaming loop returns nil after writing and then releasing every
    chunk of the channel, in the order of the channel, each under its own
    descriptor and metadata. *)
Theorem DoGet_loop_streams_in_order (cc : list StreamChunk) :
  forall stream : DoGetServer,
    Forall (fun c => Err c = None) cc ->
    Forall (fun r => r = None) (get_faults stream) ->
    DoGet_loop None cc stream =
      (None, {| get_trace := get_trace stream ++ flat_map chunk_events cc;
                get_faults := drop (length cc) (get_faults stream) |})
    /\ written_ok (flat_map chunk_events cc) = Data <$> cc
    /\ released (flat_map chunk_events cc) = Data <$> cc.
Proof.
  induction cc as [|c rest IH]; intros stream Herr Hfaults.
  - simpl. rewrite app_nil_r, drop_0. by destruct stream.
  - apply Forall_cons in Herr as [Hc Hrest]. simpl. rewrite Hc.
    unfold WriteWithAppMetadata, SetFlightDescriptor, get_log. simpl.
    destruct (get_faults stream) as [|r faults] eqn:Hf; simpl.
    + destruct (IH (Release (Data c)
                      {| get_trace := (get_trace stream ++ [EvSetFlightDescriptor (Desc c)])
                                      ++ [EvWrite (Data c) (AppMetadata c) None];
                         get_faults := [] |}) Hrest) as (Hloop & Hw & Hr); [by constructor|].
      rewrite Hloop. simpl. rewrite drop_nil, Hw, Hr.
      by rewrite <- !app_assoc.
    + apply Forall_cons in Hfaults as [-> Hfaults].
      destruct (IH (Release (Data c)
                      {| get_trace := (get_trace stream ++ [EvSetFlightDescriptor (Desc c)])
                                      ++ [EvWrite (Data c) (AppMetadata c) None];
                         get_faults := faults |}) Hrest) as (Hloop & Hw & Hr); [done|].
      rewrite Hloop. simpl. rewrite Hw, Hr.
      by rewrite <- !app_assoc.
Qed.

(** X8: on every channel and every transport, the records the streaming
    loop releases are exactly the records it has written successfully, in
    the same order; these are the records of a prefix of the channel, so no
    chunk is skipped or reordered; and the loop never closes the writer. *)
Theorem DoGet_loop_releases_what_it_wrote (cc : list StreamChunk) :
  forall (err : option Error) (stream : DoGetServer),
    exists evs,
      get_trace (DoGet_loop err cc stream).2 = get_trace stream ++ evs
      /\ released evs = written_ok evs
      /\ written_ok evs `prefix_of` (Data <$> cc)
      /\ EvClose ∉ evs.
Proof.
  induction cc as [|c rest IH]; intros err stream.
  - exists []. simpl. rewrite app_nil_r. repeat split; try done. apply not_elem_of_nil.
  - simpl. destruct (Err c).
    { exists []. simpl. rewrite app_nil_r. repeat split; try done.
      - apply prefix_nil.
      - apply not_elem_of_nil. }
    unfold WriteWithAppMetadata, SetFlightDescriptor, get_log. simpl.
    assert (Hfail : forall e, EvClose ∉ [EvSetFlightDescriptor (Desc c);
                                         EvWrite (Data c) (AppMetadata c) (Some e)]).
    { intros e Hin. repeat (apply elem_of_cons in Hin as [Hin|Hin]; [discriminate|]).
      by apply elem_of_nil in Hin. }
    assert (Hok : forall st,
      exists evs,
        get_trace (DoGet_loop None rest
                     (Release (Data c)
                        {| get_trace := (get_trace stream ++ [EvSetFlightDescriptor (Desc c)])
                                        ++ [EvWrite (Data c) (AppMetadata c) None];
                           get_faults := st |})).2 = get_trace stream ++ evs
        /\ released evs = written_ok evs
        /\ written_ok evs `prefix_of` (Data c :: (Data <$> rest))
        /\ EvClose ∉ evs).
    { intros st. destruct (IH None (Release (Data c)
                        {| get_trace := (get_trace stream ++ [EvSetFlightDescriptor (Desc c)])
                                        ++ [EvWrite (Data c) (AppMetadata c) None];
                           get_faults := st |})) as (evs & Ht & Hr & Hp & Hc).
      exists (chunk_events c ++ evs). split; [|split; [|split]].
      - rewrite Ht. simpl. by rewrite <- !app_assoc.
      - simpl. by rewrite Hr.
      - simpl. by apply prefix_cons.
      - intros Hin. apply elem_of_app in Hin as [Hin|Hin]; [|done].
        repeat (apply elem_of_cons in Hin as [Hin|Hin]; [discriminate|]).
        by apply elem_of_nil in Hin. }
    destruct (get_faults stream) as [|[e|] faults]; simpl.
    + apply Hok.
    + exists [EvSetFlightDescriptor (Desc c); EvWrite (Data c) (AppMetadata c) (Some e)].
      split; [by rewrite <- app_assoc|]. split; [done|]. split; [apply prefix_nil|apply Hfail].
    + apply Hok.
Qed.

(** X9: when the streaming loop returns an error, that error is the result
    of the last write it attempted: the chunks before the failing one were
    each written and released, the failing chunk was given its descriptor
    and written, and nothing happened after the failed write. *)
Theorem DoGet_loop_stops_at_failed_write (cc : list StreamChunk) :
  forall (stream st' : DoGetServer) (e : Error),
    DoGet_loop None cc stream = (Some e, st') ->
    exists pre c post,
      cc = pre ++ c :: post
      /\ Forall (fun c => Err c = None) pre
      /\ Err c = None
      /\ get_trace st' =
           get_trace stream ++ flat_map chunk_events pre
             ++ [EvSetFlightDescriptor (Desc c); EvWrite (Data c) (AppMetadata c) (Some e)].
Proof.
  induction cc as [|c rest IH]; intros stream st' e; simpl.
  - intros Heq. discriminate Heq.
  - destruct (Err c) eqn:Hc; [intros Heq; discriminate Heq|].
    unfold WriteWithAppMetadata, SetFlightDescriptor, get_log. simpl.
    assert (Hok : forall st,
      DoGet_loop None rest
        (Release (Data c)
           {| get_trace := (get_trace stream ++ [EvSetFlightDescriptor (Desc c)])
                           ++ [EvWrite (Data c) (AppMetadata c) None];
              get_faults := st |}) = (Some e, st') ->
      exists pre c0 post,
        c :: rest = pre ++ c0 :: post
        /\ Forall (fun c => Err c = None) pre
        /\ Err c0 = None
        /\ get_trace st' =
             get_trace stream ++ flat_map chunk_events pre
               ++ [EvSetFlightDescriptor (Desc c0);
                   EvWrite (Data c0) (AppMetadata c0) (Some e)]).
    { intros st Hloop. destruct (IH _ _ _ Hloop) as (pre & c0 & post & -> & Hpre & Hc0 & Ht).
      exists (c :: pre), c0, post. split; [done|]. split; [by constructor|]. split; [done|].
      rewrite Ht. simpl. by rewrite <- !app_assoc. }
    destruct (get_faults stream) as [|[e'|] faults]; simpl.
    + apply Hok.
    + intros [= -> <-]. exists [], c, rest. simpl.
      split; [done|]. split; [constructor|]. split; [done|]. by rewrite <- app_assoc.
    + apply Hok.
Qed.


End LoopCoverage.

(** * Further properties of the base server *)

Section BaseCoverage.

Context `{External}.


Lemma map_len_0_iff (m : SqlInfoResultMap) :
  map_len m = 0 <-> forall id, map_get m id = None.
Proof.
  split; [intros Hlen id; by apply map_len_0_get|].
  destruct m as [g|]; simpl; [|done].
  intros Hnone. apply map_size_empty_iff, map_empty. exact Hnone.
Qed.


(** X12: [GetFlightInfoSqlInfo] returns NotFound "no sql information
    available", leaving the server untouched, exactly when no capability is
    registered (on a nil registry as on an empty one); and its result never
    depends on the ids the request asks for, so a request for unregistered
    ids is only refused later, by [DoGetSqlInfo]. *)
Theorem GetFlightInfoSqlInfo_NotFound_iff_empty (b : BaseServer) (ctx : Context)
    (cmd : GetSqlInfo) (desc : FlightDescriptor) :
  ((forall id, map_get (sqlInfoToResult b) id = None) <->
   BaseServer_GetFlightInfoSqlInfo ctx cmd desc b =
     ((None, Some (StatusError NotFound "no sql information available")), b))
  /\ (forall cmd',
        BaseServer_GetFlightInfoSqlInfo ctx cmd' desc b =
        BaseServer_GetFlightInfoSqlInfo ctx cmd desc b).
Proof.
  split; [|done]. unfold BaseServer_GetFlightInfoSqlInfo. split.
  - intros Hnone. apply map_len_0_iff in Hnone. by rewrite decide_True.
  - case_decide as Hlen; [intros _; by apply map_len_0_iff|]. intros Heq. discriminate Heq.
Qed.

(** X13: a registration that returns nil is seen by both SqlInfo methods:
    [GetFlightInfoSqlInfo] no longer answers NotFound, and [DoGetSqlInfo]
    for the registered id delivers one record with one row, which holds the
    id and the value just registered under the type code of its shape,
    whatever was registered under the id before. *)
Theorem RegisterSqlInfo_then_query (b b' : BaseServer) (id : N) (v : GoValue) (ctx : Context) :
  RegisterSqlInfo b id v = Returns (None, b') ->
  (forall sc recs, Forall (fun r => rec_schema r = sc) recs ->
                   NewRecordReader sc recs = inr recs) ->
  (forall cmd desc, exists fi,
     BaseServer_GetFlightInfoSqlInfo ctx cmd desc b' = ((Some fi, None), default_Alloc b'))
  /\ exists batch,
       BaseServer_DoGetSqlInfo ctx [id] b' =
         ((Some SqlInfo_schema,
           Some [ {| Data := batch; Desc := None; AppMetadata := []; Err := None |} ],
           None), default_Alloc b')
       /\ info_name batch = [id]
       /\ typeIDs (value batch) !! 0 = type_code v
       /\ length (typeIDs (value batch)) = 1
       /\ union_row (value batch) 0 = Some v.
Proof.
  intros Hreg Hrdr.
  assert (Hget : map_get (sqlInfoToResult b') id = Some v /\ permitted v = true).
  { destruct (sqlInfoToResult b) as [m|] eqn:Hm;
      destruct v; simpl in Hreg; rewrite ?Hm in Hreg; try discriminate Hreg;
      injection Hreg as <-; simpl; by rewrite lookup_insert_eq. }
  destruct Hget as [Hget Hperm]. split.
  - intros cmd desc. unfold BaseServer_GetFlightInfoSqlInfo.
    rewrite decide_False; [by eexists|].
    intros Hlen. apply (map_len_0_get _ id) in Hlen. congruence.
  - unfold BaseServer_DoGetSqlInfo. rewrite default_Alloc_registry. simpl. rewrite Hget.
    rewrite Hrdr by (by repeat constructor). eexists. split; [reflexivity|].
    destruct v; try discriminate Hperm; by repeat split.
Qed.




(** X20: a base server whose allocator is set is not changed by any call of
    the handler interface: the two SqlInfo methods replace the allocator
    only when it is nil, and no method writes the registry. *)
Theorem BaseServer_calls_keep_configured_server (c : Call) (b : BaseServer) (a : Allocator) :
  Alloc b = Some a ->
  (invoke BaseServer_Server c b).2 = b.
Proof.
  intros Ha.
  assert (Hd : default_Alloc b = b) by (unfold default_Alloc; by rewrite Ha).
  destruct c; simpl; try reflexivity.
  - unfold BaseServer_GetFlightInfoSqlInfo. case_decide; simpl; [done|by rewrite Hd].
  - unfold BaseServer_DoGetSqlInfo. rewrite Hd.
    destruct (populate _ _ _); simpl; [done|].
    by destruct (NewRecordReader _ _).
Qed.

End BaseCoverage.

(** * Properties of the action protocol *)

Section ActionCoverage.

Context `{External} `{ActionExternal} {S : Type} (f : flightSqlServer S).

Lemma act_sends_Send (r : Result_) (stream : DoActionServer) :
  act_sends (act_Send r stream).2 = act_sends stream ++ [r].
Proof.
  unfold act_Send, act_sends.
  destruct (act_faults stream); simpl; by rewrite fmap_app.
Qed.

(** [DoAction] answers an action whose type is neither of the two
    prepared-statement action types with InvalidArgument "the defined
    request is invalid.", without decoding the body, calling a handler or
    sending a result. *)
Theorem DoAction_unknown_type (cmd : Action) (ctx : Context) (stream : DoActionServer) (s : S) :
  act_Type cmd <> CreatePreparedStatementActionType ->
  act_Type cmd <> ClosePreparedStatementActionType ->
  DoAction f cmd ctx stream s =
    (Some (StatusError InvalidArgument "the defined request is invalid."), stream, s).
Proof.
  intros Hc Hd. unfold DoAction. by rewrite !decide_False.
Qed.

(** X15: on a create-prepared action whose body decodes to a request,
    [DoAction] calls [CreatePreparedStatement]; on success it sends exactly
    one Result whose body is the marshalled envelope of the result message,
    which carries the handle and the serialization (with the server's
    allocator) of each schema that is present, an absent schema being left
    empty; on a handler error it returns that error and sends nothing. *)
Theorem DoAction_create_prepared_statement (cmd : Action) (ctx : Context)
    (stream : DoActionServer) (s : S) (anycmd : Any) (q : string) :
  act_Type cmd = CreatePreparedStatementActionType ->
  proto_Unmarshal (act_Body cmd) = inr anycmd ->
  UnmarshalTo_CreateRequest anycmd = inr q ->
  (forall output s' env body,
     CreatePreparedStatement (srv f) ctx q s = ((output, None), s') ->
     MarshalFrom_CreateResult
       {| pb_PreparedStatementHandle := Handle output;
          pb_DatasetSchema :=
            from_option (fun sc => SerializeSchema sc (mem f)) [] (DatasetSchema output);
          pb_ParameterSchema :=
            from_option (fun sc => SerializeSchema sc (mem f)) [] (ParameterSchema output) |}
       = inr env ->
     proto_Marshal_Any env = inr body ->
     let ret := {| res_Body := body |} in
     DoAction f cmd ctx stream s = ((act_Send ret stream).1, (act_Send ret stream).2, s')
     /\ act_sends (act_Send ret stream).2 = act_sends stream ++ [ret])
  /\ (forall output e s',
        CreatePreparedStatement (srv f) ctx q s = ((output, Some e), s') ->
        DoAction f cmd ctx stream s = (Some e, stream, s')).
Proof.
  intros Ht Hu Hr. split.
  - intros output s' env body Hh Hm Hb ret. split; [|apply act_sends_Send].
    unfold DoAction. rewrite decide_True by done. rewrite Hu, Hr, Hh.
    unfold from_option in Hm. rewrite Hm, Hb. fold ret. by destruct (act_Send ret stream).
  - intros output e s' Hh. unfold DoAction. rewrite decide_True by done.
    by rewrite Hu, Hr, Hh.
Qed.

(** X16: on a close-prepared action whose body decodes to a request,
    [DoAction] calls [ClosePreparedStatement] with the decoded handle; on
    success it sends exactly one Result, with an empty body, and returns the
    result of the send; on a handler error it returns that error and sends
    nothing. *)
Theorem DoAction_close_prepared_statement (cmd : Action) (ctx : Context)
    (stream : DoActionServer) (s : S) (anycmd : Any) (h : bytes) :
  act_Type cmd <> CreatePreparedStatementActionType ->
  act_Type cmd = ClosePreparedStatementActionType ->
  proto_Unmarshal (act_Body cmd) = inr anycmd ->
  UnmarshalTo_CloseRequest anycmd = inr h ->
  (forall s',
     ClosePreparedStatement (srv f) ctx h s = (None, s') ->
     let ret := {| res_Body := [] |} in
     DoAction f cmd ctx stream s = ((act_Send ret stream).1, (act_Send ret stream).2, s')
     /\ act_sends (act_Send ret stream).2 = act_sends stream ++ [ret])
  /\ (forall e s',
        ClosePreparedStatement (srv f) ctx h s = (Some e, s') ->
        DoAction f cmd ctx stream s = (Some e, stream, s')).
Proof.
  intros Hnc Ht Hu Hr. split.
  - intros s' Hh ret. split; [|apply act_sends_Send].
    unfold DoAction. rewrite decide_False by done. rewrite decide_True by done.
    rewrite Hu, Hr, Hh. fold ret. by destruct (act_Send ret stream).
  - intros e s' Hh. unfold DoAction. rewrite decide_False by done.
    rewrite decide_True by done. by rewrite Hu, Hr, Hh.
Qed.

(** X17: whatever the action, the handlers and the codec do, [DoAction]
    sends at most one Result; and it returns nil only after it has sent
    one, so a call that sends nothing always reports an error. *)
Theorem DoAction_sends_at_most_one (cmd : Action) (ctx : Context)
    (stream : DoActionServer) (s : S) :
  (act_sends (DoAction f cmd ctx stream s).1.2 = act_sends stream
   /\ is_Some (DoAction f cmd ctx stream s).1.1)
  \/ (exists r, act_sends (DoAction f cmd ctx stream s).1.2 = act_sends stream ++ [r]).
Proof.
  assert (Hsend : forall (r : Result_) (s' : S),
    exists r0, act_sends (let '(res, st) := act_Send r stream in (res, st, s')).1.2
               = act_sends stream ++ [r0]).
  { intros r s'. exists r. pose proof (act_sends_Send r stream) as Hs.
    by destruct (act_Send r stream). }
  unfold DoAction. case_decide; [|case_decide].
  - destruct (proto_Unmarshal (act_Body cmd)) as [msg|anycmd]; [left; by eauto|].
    destruct (UnmarshalTo_CreateRequest anycmd) as [msg|q]; [left; by eauto|].
    destruct (CreatePreparedStatement (srv f) ctx q s) as [[output [e|]] s'];
      [left; by eauto|].
    destruct (MarshalFrom_CreateResult _) as [msg|env]; [left; by eauto|].
    destruct (proto_Marshal_Any env) as [msg|body]; [left; by eauto|].
    right. apply Hsend.
  - destruct (proto_Unmarshal (act_Body cmd)) as [msg|anycmd]; [left; by eauto|].
    destruct (UnmarshalTo_CloseRequest anycmd) as [msg|h]; [left; by eauto|].
    destruct (ClosePreparedStatement (srv f) ctx h s) as [[e|] s']; [left; by eauto|].
    right. apply Hsend.
  - left. by eauto.
Qed.

(** X18: [ListActions] advertises the create-prepared and then the
    close-prepared action type, and nothing else; it returns at the first
    send that fails, with that error, leaving the second type unsent when
    the first send fails. *)
Theorem ListActions_advertises_both (stream : ListActionsServer) :
  (Forall (fun r => r = None) (take 2 (la_faults stream)) ->
   ListActions stream =
     (None, {| la_trace := la_trace stream
                 ++ [ ({| at_Type := CreatePreparedStatementActionType |}, None);
                      ({| at_Type := ClosePreparedStatementActionType |}, None) ];
               la_faults := drop 2 (la_faults stream) |}))
  /\ (forall e rest, la_faults stream = Some e :: rest ->
        ListActions stream =
          (Some e, {| la_trace := la_trace stream
                        ++ [ ({| at_Type := CreatePreparedStatementActionType |}, Some e) ];
                      la_faults := rest |}))
  /\ (forall e rest, la_faults stream = None :: Some e :: rest ->
        ListActions stream =
          (Some e, {| la_trace := la_trace stream
                        ++ [ ({| at_Type := CreatePreparedStatementActionType |}, None);
                             ({| at_Type := ClosePreparedStatementActionType |}, Some e) ];
                      la_faults := rest |})).
Proof.
  unfold ListActions, ListActions_loop, la_Send. split; [|split].
  - destruct (la_faults stream) as [|r1 [|r2 faults]]; simpl; intros Hall.
    + by rewrite <- app_assoc.
    + apply Forall_cons in Hall as [-> _]. simpl. by rewrite <- app_assoc.
    + apply Forall_cons in Hall as [-> Hall]. apply Forall_cons in Hall as [-> _].
      simpl. by rewrite <- app_assoc.
  - intros e rest ->. reflexivity.
  - intros e rest ->. simpl. by rewrite <- app_assoc.
Qed.

End ActionCoverage.

(** * Runs of the further properties *)

(** A body the first codec cannot decode, given to [GetFlightInfo]. *)
Lemma undecodable_payload_reaches_no_handler_witness :
  (forall cmd, ~ @decodes demo_External [Byte.x00] cmd)
  /\ exists msg,
       @GetFlightInfo demo_External _ demo_Server tt (demo_descriptor [Byte.x00])
         demo_BaseServer
       = ((None, Some (StatusError InvalidArgument msg)), demo_BaseServer).
Proof.
  assert (Hno : forall cmd, ~ @decodes demo_External [Byte.x00] cmd).
  { intros cmd (a & Hu & Hn). injection Hu as <-. discriminate Hn. }
  split; [exact Hno|].
  exact (proj1 (@undecodable_payload_reaches_no_handler demo_External _ demo_Server
                  [Byte.x00] Hno) tt (demo_descriptor [Byte.x00]) demo_BaseServer eq_refl).
Defined.

(** A GetCatalogs command sent through [DoPut]. *)
Lemma DoPut_rejects_other_commands_witness :
  @decodes demo_External [Byte.x03] CommandGetCatalogs
  /\ @DoPut demo_External _ demo_Server tt (put_with (demo_descriptor [Byte.x03]) [])
       demo_BaseServer
     = (Returns (Some (StatusError InvalidArgument "the defined request is invalid")),
        ReaderRelease (put_with (demo_descriptor [Byte.x03]) []), demo_BaseServer).
Proof.
  assert (Hd : @decodes demo_External [Byte.x03] CommandGetCatalogs).
  { eexists. split; reflexivity. }
  split; [exact Hd|].
  exact (proj1 (@DoPut_rejects_other_commands demo_External _ demo_Server tt
                  (put_with (demo_descriptor [Byte.x03]) []) demo_BaseServer
                  {| LatestFlightDescriptor := Some (demo_descriptor [Byte.x03]);
                     reader_batches := [] |}
                  (demo_descriptor [Byte.x03]) CommandGetCatalogs eq_refl eq_refl Hd I)).
Defined.

(** A [DoPut] without descriptor, which panics, still releases the reader. *)
Lemma DoPut_releases_reader_last_witness :
  exists st,
    (@DoPut demo_External _ demo_Server tt (fresh_put None) demo_BaseServer).1.2
    = ReaderRelease st.
Proof.
  exact (proj1 (@DoPut_releases_reader_last demo_External _ demo_Server tt
                  (fresh_put None) demo_BaseServer)
           {| LatestFlightDescriptor := None; reader_batches := [] |} eq_refl).
Defined.

(** A prepared update over two uploaded batches. *)
Lemma DoPut_prepared_statement_update_witness :
  @decodes demo_prepared_External [Byte.x07; Byte.xab]
     (CommandPreparedStatementUpdate [Byte.xab])
  /\ @DoPut demo_prepared_External _ demo_prepared_Server tt
       (put_with (demo_descriptor [Byte.x07; Byte.xab]) [demo_batch; demo_batch])
       demo_prepared_state
     = (Returns None,
        {| put_reader := inr {| LatestFlightDescriptor :=
                                  Some (demo_descriptor [Byte.x07; Byte.xab]);
                                reader_batches := [demo_batch; demo_batch] |};
           put_trace := [EvSend {| put_AppMetadata := [Byte.x08; Byte.x02] |} None;
                         EvReaderRelease];
           put_faults := [] |},
        demo_prepared_state).
Proof.
  assert (Hd : @decodes demo_prepared_External [Byte.x07; Byte.xab]
                 (CommandPreparedStatementUpdate [Byte.xab])).
  { eexists. split; reflexivity. }
  split; [exact Hd|].
  exact (proj1 (proj1 (@DoPut_prepared_statement_update demo_prepared_External _
                         demo_prepared_Server tt
                         (put_with (demo_descriptor [Byte.x07; Byte.xab])
                            [demo_batch; demo_batch])
                         demo_prepared_state
                         {| LatestFlightDescriptor :=
                              Some (demo_descriptor [Byte.x07; Byte.xab]);
                            reader_batches := [demo_batch; demo_batch] |}
                         (demo_descriptor [Byte.x07; Byte.xab]) [Byte.xab]
                         eq_refl eq_refl Hd)
                  2%Z demo_prepared_state [Byte.x08; Byte.x02] eq_refl eq_refl)).
Defined.

(** A statement update whose count, -1, cannot be marshalled. *)
Lemma DoPut_marshal_failure_sends_nothing_witness :
  @decodes demo_prepared_External [Byte.x04] (CommandStatementUpdate "DELETE FROM t")
  /\ @DoPut demo_prepared_External _ demo_prepared_Server tt
       (put_with (demo_descriptor [Byte.x04]) []) demo_prepared_state
     = (Returns (Some (StatusError Internal
                         "failed to marshal PutResult: negative record count")),
        ReaderRelease (put_with (demo_descriptor [Byte.x04]) []), demo_prepared_state).
Proof.
  assert (Hd : @decodes demo_prepared_External [Byte.x04]
                 (CommandStatementUpdate "DELETE FROM t")).
  { eexists. split; reflexivity. }
  split; [exact Hd|].
  exact (proj1 (@DoPut_marshal_failure_sends_nothing demo_prepared_External _
                  demo_prepared_Server tt (put_with (demo_descriptor [Byte.x04]) [])
                  demo_prepared_state
                  {| LatestFlightDescriptor := Some (demo_descriptor [Byte.x04]);
                     reader_batches := [] |}
                  (demo_descriptor [Byte.x04]) (-1)%Z demo_prepared_state
                  "negative record count" eq_refl eq_refl eq_refl)
           "DELETE FROM t" Hd eq_refl).
Defined.

(** A parameter binding whose handler writes the handle back. *)
Lemma DoPut_prepared_statement_query_witness :
  @decodes demo_prepared_External [Byte.x08; Byte.xab]
     (CommandPreparedStatementQuery [Byte.xab])
  /\ @DoPut demo_prepared_External _ demo_prepared_Server tt
       (put_with (demo_descriptor [Byte.x08; Byte.xab]) []) demo_prepared_state
     = (Returns None,
        ReaderRelease
          (WriteMetadata [Byte.xab] (put_with (demo_descriptor [Byte.x08; Byte.xab]) [])).2,
        demo_prepared_state).
Proof.
  assert (Hd : @decodes demo_prepared_External [Byte.x08; Byte.xab]
                 (CommandPreparedStatementQuery [Byte.xab])).
  { eexists. split; reflexivity. }
  split; [exact Hd|].
  exact (proj1 (proj1 (@DoPut_prepared_statement_query demo_prepared_External _
                         demo_prepared_Server tt
                         (put_with (demo_descriptor [Byte.x08; Byte.xab]) [])
                         demo_prepared_state
                         {| LatestFlightDescriptor :=
                              Some (demo_descriptor [Byte.x08; Byte.xab]);
                            reader_batches := [] |}
                         (demo_descriptor [Byte.x08; Byte.xab]) [Byte.xab]
                         eq_refl eq_refl Hd)
                  None _ demo_prepared_state eq_refl)).
Defined.

(** Two chunks, the second under a descriptor, on a transport without
    faults. *)
Lemma DoGet_loop_streams_in_order_witness :
  DoGet_loop None [demo_chunk None; demo_chunk (Some (demo_descriptor []))] (fresh_get [])
  = (None,
     {| get_trace :=
          [EvSetFlightDescriptor None; EvWrite demo_batch [Byte.x2a] None;
           EvRelease demo_batch;
           EvSetFlightDescriptor (Some (demo_descriptor []));
           EvWrite demo_batch [Byte.x2a] None; EvRelease demo_batch];
        get_faults := [] |}).
Proof.
  refine (proj1 (DoGet_loop_streams_in_order
                   [demo_chunk None; demo_chunk (Some (demo_descriptor []))] (fresh_get [])
                   _ _)); repeat constructor.
Defined.

(** Two chunks on a transport that fails the second write. *)
Lemma DoGet_loop_stops_at_failed_write_witness :
  DoGet_loop None [demo_chunk None; demo_chunk None]
    (fresh_get [None; Some demo_transport_error])
  = (Some demo_transport_error,
     {| get_trace := [EvSetFlightDescriptor None; EvWrite demo_batch [Byte.x2a] None;
                      EvRelease demo_batch; EvSetFlightDescriptor None;
                      EvWrite demo_batch [Byte.x2a] (Some demo_transport_error)];
        get_faults := [] |})
  /\ exists pre c post,
       [demo_chunk None; demo_chunk None] = pre ++ c :: post
       /\ Forall (fun c => Err c = None) pre
       /\ Err c = None
       /\ [EvSetFlightDescriptor None; EvWrite demo_batch [Byte.x2a] None;
           EvRelease demo_batch; EvSetFlightDescriptor None;
           EvWrite demo_batch [Byte.x2a] (Some demo_transport_error)]
          = [] ++ flat_map chunk_events pre
            ++ [EvSetFlightDescriptor (Desc c);
                EvWrite (Data c) (AppMetadata c) (Some demo_transport_error)].
Proof.
  assert (Hrun : DoGet_loop None [demo_chunk None; demo_chunk None]
                   (fresh_get [None; Some demo_transport_error])
                 = (Some demo_transport_error,
                    {| get_trace := [EvSetFlightDescriptor None;
                                     EvWrite demo_batch [Byte.x2a] None;
                                     EvRelease demo_batch; EvSetFlightDescriptor None;
                                     EvWrite demo_batch [Byte.x2a]
                                       (Some demo_transport_error)];
                       get_faults := [] |})) by reflexivity.
  split; [exact Hrun|].
  exact (DoGet_loop_stops_at_failed_write _ _ _ _ Hrun).
Defined.


(** The zero-value base server has nothing registered. *)
Lemma GetFlightInfoSqlInfo_NotFound_iff_empty_witness :
  (forall id, map_get (sqlInfoToResult (@zero_BaseServer demo_External)) id = None)
  /\ @BaseServer_GetFlightInfoSqlInfo demo_External tt [1]%N (demo_descriptor [Byte.x05])
       zero_BaseServer
     = ((None, Some (StatusError NotFound "no sql information available")), zero_BaseServer).
Proof.
  assert (Hnone : forall id,
            map_get (sqlInfoToResult (@zero_BaseServer demo_External)) id = None)
    by reflexivity.
  split; [exact Hnone|].
  exact (proj1 (proj1 (@GetFlightInfoSqlInfo_NotFound_iff_empty demo_External
                         zero_BaseServer tt [1]%N (demo_descriptor [Byte.x05]))) Hnone).
Defined.

(** Registering the int32 value 5 under id 3, then asking for id 3. *)
Lemma RegisterSqlInfo_then_query_witness :
  @RegisterSqlInfo demo_External demo_BaseServer 3%N (VInt32 5) =
    Returns (None,
             {| sqlInfoToResult :=
                  Some (<[3%N := VInt32 5]>
                          (<[2%N := VBool true]> (<[1%N := VString "v1.0"]> ∅)));
                Alloc := None |})
  /\ exists batch,
       @BaseServer_DoGetSqlInfo demo_External tt [3%N]
         {| sqlInfoToResult :=
              Some (<[3%N := VInt32 5]>
                      (<[2%N := VBool true]> (<[1%N := VString "v1.0"]> ∅)));
            Alloc := None |}
       = ((Some SqlInfo_schema,
           Some [ {| Data := batch; Desc := None; AppMetadata := []; Err := None |} ],
           None),
          default_Alloc
            {| sqlInfoToResult :=
                 Some (<[3%N := VInt32 5]>
                         (<[2%N := VBool true]> (<[1%N := VString "v1.0"]> ∅)));
               Alloc := None |})
       /\ info_name batch = [3%N]
       /\ typeIDs (value batch) !! 0 = Some 3%Z
       /\ length (typeIDs (value batch)) = 1
       /\ union_row (value batch) 0 = Some (VInt32 5).
Proof.
  split; [reflexivity|].
  refine (proj2 (@RegisterSqlInfo_then_query demo_External demo_BaseServer _ 3%N (VInt32 5)
                   tt eq_refl _)).
  intros sc recs Hall. simpl. unfold demo_NewRecordReader.
  destruct (decide (Forall (fun r => rec_schema r = sc) recs)) as [_|Hn];
    [reflexivity | destruct (Hn Hall)].
Defined.


(** An action of an unknown type. *)
Lemma DoAction_unknown_type_witness :
  @DoAction demo_prepared_External demo_ActionExternal _
    (NewFlightServer demo_prepared_Server)
    {| act_Type := "DropPreparedStatement"; act_Body := [Byte.x02] |} tt
    fresh_action demo_prepared_state
  = (Some (StatusError InvalidArgument "the defined request is invalid."),
     fresh_action, demo_prepared_state).
Proof.
  apply (@DoAction_unknown_type demo_prepared_External demo_ActionExternal _
           (NewFlightServer demo_prepared_Server)); discriminate.
Defined.

(** Creating a prepared statement: the handle [0xAB], no dataset schema, a
    serialized parameter schema. *)
Lemma DoAction_create_prepared_statement_witness :
  @DoAction demo_prepared_External demo_ActionExternal _
    (NewFlightServer demo_prepared_Server)
    {| act_Type := "CreatePreparedStatement"; act_Body := [Byte.x01] |} tt
    fresh_action demo_prepared_state
  = (None,
     {| act_trace := [ ({| res_Body := [Byte.xab; Byte.xff] |}, None) ]; act_faults := [] |},
     demo_prepared_state).
Proof.
  exact (proj1 (proj1 (@DoAction_create_prepared_statement demo_prepared_External
                         demo_ActionExternal _ (NewFlightServer demo_prepared_Server)
                         {| act_Type := "CreatePreparedStatement"; act_Body := [Byte.x01] |}
                         tt fresh_action demo_prepared_state
                         {| type_url := "demo"; any_value := [Byte.x01] |} "SELECT ?"
                         eq_refl eq_refl eq_refl)
                  _ demo_prepared_state _ [Byte.xab; Byte.xff] eq_refl eq_refl eq_refl)).
Defined.

(** Closing the statement [0xAB]. *)
Lemma DoAction_close_prepared_statement_witness :
  @DoAction demo_prepared_External demo_ActionExternal _
    (NewFlightServer demo_prepared_Server)
    {| act_Type := "ClosePreparedStatement"; act_Body := [Byte.x02; Byte.xab] |} tt
    fresh_action demo_prepared_state
  = (None, {| act_trace := [ ({| res_Body := [] |}, None) ]; act_faults := [] |},
     demo_prepared_state).
Proof.
  refine (proj1 (proj1 (@DoAction_close_prepared_statement demo_prepared_External
                          demo_ActionExternal _ (NewFlightServer demo_prepared_Server)
                          {| act_Type := "ClosePreparedStatement";
                             act_Body := [Byte.x02; Byte.xab] |}
                          tt fresh_action demo_prepared_state
                          {| type_url := "demo"; any_value := [Byte.x02; Byte.xab] |}
                          [Byte.xab] _ eq_refl eq_refl eq_refl)
                   demo_prepared_state eq_refl)).
  discriminate.
Defined.

(** A transport that fails the first send of [ListActions]. *)
Lemma ListActions_advertises_both_witness :
  @ListActions demo_ActionExternal
    {| la_trace := []; la_faults := [Some demo_transport_error] |}
  = (Some demo_transport_error,
     {| la_trace := [ ({| at_Type := "CreatePreparedStatement" |},
                       Some demo_transport_error) ];
        la_faults := [] |}).
Proof.
  exact (proj1 (proj2 (@ListActions_advertises_both demo_ActionExternal
                         {| la_trace := []; la_faults := [Some demo_transport_error] |}))
           demo_transport_error [] eq_refl).
Defined.

(** The capability query of ids 1 and 2 on a base server with an allocator. *)
Lemma BaseServer_calls_keep_configured_server_witness :
  (@invoke demo_External _ BaseServer_Server (@CallDoGetSqlInfo demo_External tt [1; 2]%N)
     (@Build_BaseServer demo_External (sqlInfoToResult demo_BaseServer) (Some tt))).2
  = (@Build_BaseServer demo_External (sqlInfoToResult demo_BaseServer) (Some tt)).
Proof.
  exact (@BaseServer_calls_keep_configured_server demo_External
           (@CallDoGetSqlInfo demo_External tt [1; 2]%N)
           (@Build_BaseServer demo_External (sqlInfoToResult demo_BaseServer) (Some tt))
           tt eq_refl).
Defined.
